(** * News sentiment dashboard: the fetch-classify pipeline of
    [streamlit_app.py]

    A shallow embedding of [fetch_and_analyze_news] and of the caching
    decorator put on it, with the properties its specification states.

    Conventions of the embedding.
    - A Python [float] is an IEEE 754 binary64 value, here a [spec_float]
      of the standard library ([prec = 53], [emax = 1024]).  Comparisons
      are [SFltb], so NaN compares false with everything, as in Python.
    - A Python [str] is a [string]; each character stands for the code
      point of the same number (the code points below 256).
    - The value [response.json()] returns is a [pyval]; a [dict] is a
      finite map from strings.
    - Library calls the program makes ([requests.get], TextBlob's polarity,
      [str()] of numbers with a fraction and of containers) are variables
      of the sections that use them. *)

From Stdlib Require Import ZArith QArith String Ascii SpecFloat DecimalString.
From stdpp Require Import base gmap strings list.

Set Warnings "-register-all".

Local Open Scope Z_scope.
Local Open Scope string_scope.

(** ** Floating-point numbers *)

Module PyFloat.

Definition prec : Z := 53.
Definition emax : Z := 1024.

(** The literal [0.1]: the binary64 value nearest to one tenth,
    [0x1.999999999999ap-4]. *)
Definition lit_0_1 : spec_float := S754_finite false 7205759403792794 (-56).

(** The literal [1000.0], exact in binary64. *)
Definition lit_1000 : spec_float := S754_finite false 1000 0.

(** [x > y] and [x < y] on floats. *)
Definition gt (x y : spec_float) : bool := SFltb y x.
Definition lt (x y : spec_float) : bool := SFltb x y.

(** The integer nearest to [n / d] for [0 <= n] and [0 < d], a tie going
    to the even neighbour. *)
Definition div_half_even (n d : Z) : Z :=
  let q := n / d in
  match 2 * (n mod d) ?= d with
  | Lt => q
  | Gt => q + 1
  | Eq => if Z.even q then q else q + 1
  end.

(** The integer nearest to [m * 2^e * 1000], ties to even, for a positive
    mantissa [m]: the digits of [|x|] kept by a rounding to 3 decimals. *)
Definition thousandths (m : positive) (e : Z) : Z :=
  match e with
  | Zneg p => div_half_even (Zpos m * 1000) (2 ^ Zpos p)
  | _ => Zpos m * 1000 * 2 ^ e
  end.

(** [round(x, 3)] on a float.  CPython rounds the exact value of [x] to
    three decimals (ties to even), which gives a decimal [k / 1000], and
    returns the float nearest to that decimal; infinities, NaN and zeros
    are returned as they are, and the sign is kept when [k = 0]. *)
Definition round3 (x : spec_float) : spec_float :=
  match x with
  | S754_finite s m e =>
      match thousandths m e with
      | Zpos k => SFdiv prec emax (S754_finite s k 0) lit_1000
      | _ => S754_zero s
      end
  | _ => x
  end.

End PyFloat.

(** ** Sentiment label (lines 48-53) *)

Definition sentiment_of (polarity : spec_float) : string :=
  if PyFloat.gt polarity PyFloat.lit_0_1 then "Positive"
  else if PyFloat.lt polarity (SFopp PyFloat.lit_0_1) then "Negative"
  else "Neutral".

(** ** Strings *)

(** [str.isspace] on one character, for the code points below 256: tab to
    carriage return, the four separators 28-31, space, NEL and the
    no-break space. *)
Definition py_isspace (c : ascii) : bool :=
  let n := N_of_ascii c in
  (((9 <=? n) && (n <=? 13)) || ((28 <=? n) && (n <=? 32))
   || (n =? 133) || (n =? 160))%N.

Fixpoint lstrip (s : string) : string :=
  match s with
  | String c s' => if py_isspace c then lstrip s' else s
  | EmptyString => EmptyString
  end.

Fixpoint rstrip (s : string) : string :=
  match s with
  | EmptyString => EmptyString
  | String c s' =>
      match rstrip s' with
      | EmptyString => if py_isspace c then EmptyString else String c EmptyString
      | r => String c r
      end
  end.

(** [s.strip()] *)
Definition strip (s : string) : string := rstrip (lstrip s).

(** ** Python values, as [json.loads] builds them *)

Inductive pyval :=
| PNone
| PBool (b : bool)
| PInt (z : Z)
| PFloat (f : spec_float)
| PStr (s : string)
| PList (l : list pyval)
| PDict (m : gmap string pyval).

Definition type_name (v : pyval) : string :=
  match v with
  | PNone => "NoneType"
  | PBool _ => "bool"
  | PInt _ => "int"
  | PFloat _ => "float"
  | PStr _ => "str"
  | PList _ => "list"
  | PDict _ => "dict"
  end.

(** Truth value of a Python object, as [not v] and [if v] test it. *)
Definition truthy (v : pyval) : bool :=
  match v with
  | PNone => false
  | PBool b => b
  | PInt z => negb (Z.eqb z 0)
  | PFloat (S754_zero _) => false
  | PFloat _ => true
  | PStr s => negb (String.eqb s "")
  | PList l => negb (Nat.eqb (length l) 0)
  | PDict m => negb (Nat.eqb (size m) 0)
  end.

(** ** Exceptions and results *)

(** The class of a raised exception, as far as the program tells classes
    apart: [RequestException] stands for that class and its subclasses
    (what [except requests.exceptions.RequestException] catches),
    [OtherException] for every class outside that hierarchy other than the
    two builtins named here. *)
Inductive exc_class :=
| RequestException
| AttributeError
| TypeError
| OtherException.

(** An exception: its class and [str(e)]. *)
Record exc := Exc { exc_cls : exc_class; exc_str : string }.

Inductive res (A : Type) :=
| Ok (a : A)
| Raise (e : exc).
Arguments Ok {A} a.
Arguments Raise {A} e.

#[global] Instance res_ret : MRet res := @Ok.
#[global] Instance res_bind : MBind res := fun A B f m =>
  match m with
  | Ok a => f a
  | Raise e => Raise e
  end.

(** [v.get(key, dflt)]: only a dict has the method. *)
Definition py_get (v : pyval) (key : string) (dflt : pyval) : res pyval :=
  match v with
  | PDict m => Ok (default dflt (m !! key))
  | _ => Raise (Exc AttributeError
                  ("'" +:+ type_name v +:+ "' object has no attribute 'get'"))
  end.

(** The elements a [for] loop over [v] visits.  A str yields its
    characters and a dict its keys (all of them strs; their order plays no
    part below). *)
Definition py_iter (v : pyval) : res (list pyval) :=
  match v with
  | PList l => Ok l
  | PStr s => Ok ((fun c => PStr (String c EmptyString)) <$> list_ascii_of_string s)
  | PDict m => Ok (PStr <$> (map_to_list m).*1)
  | _ => Raise (Exc TypeError
                  ("'" +:+ type_name v +:+ "' object is not iterable"))
  end.

(** ** Output rows and events *)

(** One dict appended to [analyzed_articles] (lines 55-61). *)
Record analyzed := Analyzed {
  title : pyval;
  source : pyval;
  sentiment_score : spec_float;
  sentiment_label : string;
  url : pyval
}.

(** What a run does to the outside: the call [requests.get(url)], and the
    messages [st.warning] and [st.error] show. *)
Inductive event :=
| HttpGet (target : string)
| Warning (msg : string)
| Error (msg : string).

(** ** The pipeline (lines 17-63) *)

Section Pipeline.

(** [requests.get(url)], [raise_for_status()] and [response.json()]
    (lines 22-24) taken together: the decoded body, or the exception one of
    the three raises. *)
Variable requests_get : string -> res pyval.

(** [TextBlob(text).sentiment.polarity] *)
Variable polarity_of : string -> spec_float.

(** [str(v)] for a float, a list or a dict. *)
Variable str_other : pyval -> string.

(** [str(v)], which is what an f-string puts for [{v}]. *)
Definition py_str (v : pyval) : string :=
  match v with
  | PStr s => s
  | PNone => "None"
  | PBool true => "True"
  | PBool false => "False"
  | PInt z => NilZero.string_of_int (Z.to_int z)
  | _ => str_other v
  end.

(** Line 45: [f"{title} {description}".strip()] *)
Definition build_text (title description : pyval) : string :=
  strip (py_str title +:+ " " +:+ py_str description).

(** The body of the loop (lines 37-61): [None] is [continue], [Some row]
    is the dict appended to [analyzed_articles]. *)
Definition analyze_article (article : pyval) : res (option analyzed) :=
  title ← py_get article "title" (PStr "");
  description ← py_get article "description" (PStr "");
  url ← py_get article "url" (PStr "");
  source_obj ← py_get article "source" (PDict ∅);
  source ← py_get source_obj "name" (PStr "Unknown");
  if negb (truthy title) then Ok None
  else
    let text := build_text title description in
    let polarity := polarity_of text in
    let sentiment := sentiment_of polarity in
    Ok (Some {| title := title;
                source := source;
                sentiment_score := PyFloat.round3 polarity;
                sentiment_label := sentiment;
                url := url |}).

(** The [for] loop (lines 35-61), [analyzed_articles] being the list built
    so far. *)
Fixpoint analyze_loop (articles : list pyval) (analyzed_articles : list analyzed)
  : res (list analyzed) :=
  match articles with
  | [] => Ok analyzed_articles
  | article :: rest =>
      row ← analyze_article article;
      analyze_loop rest
        (match row with
         | Some r => analyzed_articles ++ [r]
         | None => analyzed_articles
         end)
  end.

(** Lines 22-25, the part of the [try] block that can raise. *)
Definition try_block (target : string) : res pyval :=
  data ← requests_get target;
  py_get data "articles" (PList []).

(** Line 19 *)
Definition request_url (api_key query : string) : string :=
  "https://gnews.io/api/v4/search?q=" +:+ query
  +:+ "&lang=en&token=" +:+ api_key.

(** [fetch_and_analyze_news(api_key, query)]: the rows of the returned
    DataFrame or the exception that leaves the function, and the events of
    the run in order. *)
Definition fetch_and_analyze_news (api_key query : string)
  : res (list analyzed) * list event :=
  let target := request_url api_key query in
  match try_block target with
  | Ok articles =>
      if negb (truthy articles) then
        (Ok [], [HttpGet target; Warning "No articles found for this query."])
      else
        (items ← py_iter articles; analyze_loop items [], [HttpGet target])
  | Raise e =>
      match exc_cls e with
      | RequestException =>
          (Ok [], [HttpGet target; Error ("Error fetching news: " +:+ exc_str e)])
      | _ => (Raise e, [HttpGet target])
      end
  end.

End Pipeline.

(** ** The decorator [st.cache_data(ttl=600)] (line 17) *)

(** Seconds a stored result stays valid. *)
Definition ttl : Q := 600.

(** A stored result: when it was stored, the rows, and the messages the
    run showed, which a later hit shows again. *)
Record cache_entry := CacheEntry {
  stored_at : Q;
  cached_rows : list analyzed;
  cached_messages : list event
}.

Definition is_message (ev : event) : bool :=
  match ev with
  | HttpGet _ => false
  | _ => true
  end.

Section Cache.

(** What the network answers to a request made at a given time. *)
Variable network : Q -> string -> res pyval.
Variable polarity_of : string -> spec_float.
Variable str_other : pyval -> string.

(** A call of the decorated function at time [now].  The key is the pair
    of arguments.  An entry younger than [ttl] is returned without running
    the body; otherwise the body runs, and its result is stored unless it
    raised. *)
Definition cached_fetch (now : Q) (api_key query : string)
    (cache : gmap (string * string) cache_entry)
  : res (list analyzed) * list event * gmap (string * string) cache_entry :=
  let run :=
    match fetch_and_analyze_news (network now) polarity_of str_other api_key query with
    | (Ok rows, evs) =>
        (Ok rows, evs,
         <[(api_key, query) := CacheEntry now rows (filter is_message evs)]> cache)
    | (Raise e, evs) => (Raise e, evs, cache)
    end in
  match cache !! (api_key, query) with
  | Some entry =>
      if Qlt_le_dec now (stored_at entry + ttl)
      then (Ok (cached_rows entry), cached_messages entry, cache)
      else run
  | None => run
  end.

(** The cache after a sequence of calls, each one a time and the two
    arguments. *)
Fixpoint cache_after (calls : list (Q * (string * string)))
    (cache : gmap (string * string) cache_entry)
  : gmap (string * string) cache_entry :=
  match calls with
  | [] => cache
  | (now, (api_key, query)) :: rest =>
      cache_after rest (cached_fetch now api_key query cache).2
  end.

End Cache.

(** ** Vocabulary of the properties *)

(** [article.get(key, dflt)] on an article that is a dict. *)
Definition field (article : pyval) (key : string) (dflt : pyval) : pyval :=
  match article with
  | PDict m => default dflt (m !! key)
  | _ => dflt
  end.

(** The article has a title: the value under ["title"] is there and is
    true as Python tests it (for a str: it is not empty). *)
Definition has_title (article : pyval) : bool :=
  truthy (field article "title" (PStr "")).

(** The loop body runs on the article without raising: it is a dict, and
    what it holds under ["source"], if anything, is a dict. *)
Definition well_formed (article : pyval) : bool :=
  match article with
  | PDict m =>
      match m !! "source" with
      | None | Some (PDict _) => true
      | Some _ => false
      end
  | _ => false
  end.

(** The list under ["articles"] of a decoded response. *)
Definition raw_articles (response : res pyval) : list pyval :=
  match response with
  | Ok (PDict m) =>
      match m !! "articles" with
      | Some (PList l) => l
      | _ => []
      end
  | _ => []
  end.

(** The row of an article, given the polarity of its text. *)
Definition row_with (article : pyval) (polarity : spec_float) : analyzed :=
  {| title := field article "title" (PStr "");
     source := field (field article "source" (PDict ∅)) "name" (PStr "Unknown");
     sentiment_score := PyFloat.round3 polarity;
     sentiment_label := sentiment_of polarity;
     url := field article "url" (PStr "") |}.

(** The text of an article that goes to the scorer. *)
Definition text_of (str_other : pyval -> string) (article : pyval) : string :=
  build_text str_other
    (field article "title" (PStr "")) (field article "description" (PStr "")).

Definition row_of (polarity_of : string -> spec_float)
    (str_other : pyval -> string) (article : pyval) : analyzed :=
  row_with article (polarity_of (text_of str_other article)).

(** The number of requests among the events of a run. *)
Definition requests_made (evs : list event) : nat :=
  length (filter (fun ev => is_message ev = false) evs).

(** ** Sample inputs *)

Module Sample.

(** The float written [0.1004]. *)
Definition f_0_1004 : spec_float := S754_finite false 7234582441407965 (-56).

(** The float [0.5]. *)
Definition f_0_5 : spec_float := S754_finite false 4503599627370496 (-53).

Definition no_str_other (_ : pyval) : string := "".

Definition neutral_scorer (_ : string) : spec_float := S754_zero false.

Definition scorer_0_1004 (_ : string) : spec_float := f_0_1004.

(** A scorer that tells the text ["HelloWorld"] from every other text. *)
Definition probe_scorer (text : string) : spec_float :=
  if String.eqb text "HelloWorld" then f_0_5 else S754_zero false.

Definition src (name : string) : pyval := PDict {[ "name" := PStr name ]}.

Definition article_hello : pyval :=
  PDict (list_to_map
    [("title", PStr "Hello"); ("description", PStr "World");
     ("url", PStr "https://example.org/1"); ("source", src "Wire")]).

Definition article_untitled : pyval :=
  PDict (list_to_map
    [("title", PStr ""); ("description", PStr "No headline");
     ("url", PStr "https://example.org/2"); ("source", src "Wire")]).

Definition article_bare : pyval :=
  PDict (list_to_map [("title", PStr "Markets rally")]).

Definition article_null_description : pyval :=
  PDict (list_to_map
    [("title", PStr "Storm"); ("description", PNone);
     ("url", PStr "https://example.org/3"); ("source", src "Desk")]).

Definition article_null_source : pyval :=
  PDict (list_to_map
    [("title", PStr "Storm"); ("description", PStr "Rain");
     ("url", PStr "https://example.org/4"); ("source", PNone)]).

Definition response (articles : list pyval) : pyval :=
  PDict {[ "articles" := PList articles ]}.

Definition serve (body : pyval) (_ : string) : res pyval := Ok body.

Definition fail_with (e : exc) (_ : string) : res pyval := Raise e.

Definition connection_error : exc :=
  Exc RequestException "Connection refused".

(** A network whose answer changes at time 50. *)
Definition changing_network (now : Q) (_ : string) : res pyval :=
  if Qlt_le_dec now 50 then Ok (response [article_hello])
  else Ok (response [article_bare; article_hello]).

Definition recursion_error : exc :=
  Exc OtherException "maximum recursion depth exceeded while decoding a JSON array from a unicode string".

End Sample.

(** ** The page (lines 70-92 and 118-121) *)

(** The three [st.metric] boxes of lines 90-92, by what they count (their
    captions are "Total Articles", and "Positive" and "Negative" after a
    pictogram). *)
Inductive metric :=
| TotalArticles
| PositiveArticles
| NegativeArticles.

(** What a run of the script puts on the page or does to the outside, in
    order: the events of the call of [fetch_and_analyze_news] and the
    [st.error] of line 119, [st.info], [st.success] and [st.metric]. *)
Inductive shown :=
| Event (ev : event)
| Info (msg : string)
| Success (msg : string)
| Metric (m : metric) (value : nat).

(** [str(n)] for a length. *)
Definition nat_str (n : nat) : string := NilZero.string_of_uint (Nat.to_uint n).

(** [sentiment_counts.get(label, 0)] (lines 88, 91, 92): how many rows
    carry the label. *)
Definition count_label (label : string) (rows : list analyzed) : nat :=
  length (filter (fun r => sentiment_label r = label) rows).

(** Lines 72-74: the stored secret, or what is typed when there is none. *)
Definition api_key_secret (secret typed : string) : string :=
  if String.eqb secret "" then typed else secret.

Section Page.

Variable network : Q -> string -> res pyval.
Variable polarity_of : string -> spec_float.
Variable str_other : pyval -> string.

(** Lines 85-92 and 118-119: what the page shows for the rows the call
    returned.  The chart and the table (lines 94-116), drawn after the
    metrics, are not part of the model. *)
Definition show_rows (query : string) (rows : list analyzed) : list shown :=
  match rows with
  | [] =>
      [Event (Error "Could not retrieve or analyze news. Check your API key or query.")]
  | _ =>
      [Success (" Successfully analyzed " +:+ nat_str (length rows)
                +:+ " articles for '" +:+ query +:+ "'!");
       Metric TotalArticles (length rows);
       Metric PositiveArticles (count_label "Positive" rows);
       Metric NegativeArticles (count_label "Negative" rows)]
  end.

(** One run of the script at time [now] (lines 70-121): the exception that
    ends it, if one does, what it shows, and the cache it leaves.  [secret]
    is what [st.secrets.get] returns, [typed] and [query] what the two text
    inputs hold, [refresh_button] whether the button was clicked.  The fixed
    headings of lines 67-71 are left out. *)
Definition page (now : Q) (secret typed query : string) (refresh_button : bool)
    (cache : gmap (string * string) cache_entry)
  : option exc * list shown * gmap (string * string) cache_entry :=
  let key := api_key_secret secret typed in
  if refresh_button && negb (String.eqb key "") then
    match cached_fetch network polarity_of str_other now key query cache with
    | (Ok rows, evs, cache') =>
        (None, ((Event <$> evs) ++ show_rows query rows)%list, cache')
    | (Raise e, evs, cache') => (Some e, Event <$> evs, cache')
    end
  else
    (None,
     [Info " Enter your GNews API key and a topic, then click 'Fetch and Analyze News' to begin."],
     cache).

End Page.

(** The number of requests among what a run of the script shows and
    does. *)
Definition page_requests (out : list shown) : nat :=
  length (filter (fun s => match s with
                           | Event (HttpGet _) => true
                           | _ => false
                           end = true) out).

(** ** The secrets store and the whole script (lines 70-121) *)

(** What [st.secrets] finds: no secrets file, and then the exception every
    access raises, or the entries of the file (those that are strs). *)
Inductive secrets :=
| NoSecretsFile (e : exc)
| SecretsFile (entries : gmap string string).

(** [st.secrets.get(key, dflt)]: the lookup raises when there is no file;
    [get] turns only a missing key into the default. *)
Definition secrets_get (store : secrets) (key dflt : string) : res string :=
  match store with
  | NoSecretsFile e => Raise e
  | SecretsFile entries => Ok (default dflt (entries !! key))
  end.

Section Script.

Variable network : Q -> string -> res pyval.
Variable polarity_of : string -> spec_float.
Variable str_other : pyval -> string.

(** One run of the script from line 72 on: line 72 reads the secret, and
    when that raises the run ends there, before anything of lines 73-121;
    otherwise the run goes on as [page] with the value read. *)
Definition script (now : Q) (store : secrets) (typed query : string)
    (refresh_button : bool) (cache : gmap (string * string) cache_entry)
  : option exc * list shown * gmap (string * string) cache_entry :=
  match secrets_get store "GNEWS_API_KEY" "" with
  | Raise e => (Some e, [], cache)
  | Ok secret =>
      page network polarity_of str_other now secret typed query
        refresh_button cache
  end.

End Script.

(** ** More vocabulary *)

(** The sign bit of a float; NaN has none. *)
Definition sign_bit (x : spec_float) : option bool :=
  match x with
  | S754_zero s | S754_infinity s | S754_finite s _ _ => Some s
  | S754_nan => None
  end.

(** No stored message is a request. *)
Definition cache_clean (cache : gmap (string * string) cache_entry) : Prop :=
  forall key entry, cache !! key = Some entry ->
    requests_made (cached_messages entry) = 0%nat.

(** The cache holds an entry for the key that is still valid at [now]. *)
Definition fresh_entry (cache : gmap (string * string) cache_entry)
    (key : string * string) (now : Q) : Prop :=
  exists entry, cache !! key = Some entry /\ (now < stored_at entry + ttl)%Q.

(** ** More sample inputs *)

Module Sample2.

(** A scorer that finds "Hello World" positive, "Markets rally" negative
    and everything else neutral. *)
Definition mood_scorer (text : string) : spec_float :=
  if String.eqb text "Hello World" then Sample.f_0_5
  else if String.eqb text "Markets rally" then SFopp Sample.f_0_5
  else S754_zero false.

Definition article_no_title_null_source : pyval :=
  PDict (list_to_map [("description", PStr "No headline"); ("source", PNone)]).

Definition article_null_name : pyval :=
  PDict (list_to_map
    [("title", PStr "Storm"); ("source", PDict {[ "name" := PNone ]})]).

(** A network that is down until time 50 and up afterwards. *)
Definition recovering_network (now : Q) (_ : string) : res pyval :=
  if Qlt_le_dec now 50 then Raise Sample.connection_error
  else Ok (Sample.response [Sample.article_hello]).

(** A network whose body cannot be decoded until time 50. *)
Definition crashing_network (now : Q) (_ : string) : res pyval :=
  if Qlt_le_dec now 50 then Raise Sample.recursion_error
  else Ok (Sample.response [Sample.article_hello]).

End Sample2.

(** * Properties *)

(** ** Checks of [round3] on known values of [round(x, 3)] *)

(** [round(0.1004, 3) == 0.1] *)
Example round3_0_1004 :
  PyFloat.round3 (S754_finite false 7234582441407965 (-56)) = PyFloat.lit_0_1.
Proof. vm_compute. reflexivity. Qed.

(** [round(2.675, 3) == 2.675] *)
Example round3_2_675 :
  PyFloat.round3 (S754_finite false 6023564501608038 (-51))
  = S754_finite false 6023564501608038 (-51).
Proof. vm_compute. reflexivity. Qed.

(** [round(0.0625, 3) == 0.062]: an exact tie goes to the even digit. *)
Example round3_0_0625 :
  PyFloat.round3 (S754_finite false 4503599627370496 (-56))
  = S754_finite false 8935141660703064 (-57).
Proof. vm_compute. reflexivity. Qed.

(** [round(0.1875, 3) == 0.188] *)
Example round3_0_1875 :
  PyFloat.round3 (S754_finite false 6755399441055744 (-55))
  = S754_finite false 6773413839565226 (-55).
Proof. vm_compute. reflexivity. Qed.

(** [round(1234567.8905, 3) == 1234567.89]: the float written
    [1234567.8905] lies below the decimal tie. *)
Example round3_1234567_8905 :
  PyFloat.round3 (S754_finite false 5302428714389209 (-32))
  = S754_finite false 5302428712241725 (-32).
Proof. vm_compute. reflexivity. Qed.

(** [round(-0.0001, 3) == -0.0] *)
Example round3_neg_small :
  PyFloat.round3 (S754_finite true 7378697629483821 (-66)) = S754_zero true.
Proof. vm_compute. reflexivity. Qed.

(** [round(0.1005, 3) == 0.101] and [round(0.0995, 3) == 0.1] *)
Example round3_0_1005 :
  PyFloat.round3 (S754_finite false 7241788200811758 (-56))
  = S754_finite false 7277816997830722 (-56).
Proof. vm_compute. reflexivity. Qed.

Example round3_0_0995 :
  PyFloat.round3 (S754_finite false 7169730606773830 (-56)) = PyFloat.lit_0_1.
Proof. vm_compute. reflexivity. Qed.

(** [round(1e22, 3) == 1e22]: large floats are their own rounding. *)
Example round3_1e22 :
  PyFloat.round3 (S754_finite false 4768371582031250 21)
  = S754_finite false 4768371582031250 21.
Proof. vm_compute. reflexivity. Qed.

(** ** Checks of the string and value functions *)

Example strip_both_ends :
  strip (String (ascii_of_nat 9) "  two words " +:+ String (ascii_of_nat 10) "")
  = "two words".
Proof. reflexivity. Qed.

Example strip_all_space : strip "   " = "".
Proof. reflexivity. Qed.

Example py_str_values :
  py_str Sample.no_str_other <$> [PNone; PBool true; PInt (-42); PInt 0; PStr "x"]
  = ["None"; "True"; "-42"; "0"; "x"].
Proof. reflexivity. Qed.

Example truthy_values :
  truthy <$> [PNone; PInt 0; PFloat (S754_zero true); PFloat S754_nan;
              PStr ""; PStr " "; PList []; PDict ∅; PDict {[ "k" := PNone ]}]
  = [false; false; false; true; false; true; false; false; true].
Proof. reflexivity. Qed.

(** NaN is neither above [0.1] nor below [-0.1]. *)
Example sentiment_of_nan : sentiment_of S754_nan = "Neutral".
Proof. reflexivity. Qed.

(** ** The label *)

Lemma lt_neg_not_gt (p : spec_float) :
  PyFloat.lt p (SFopp PyFloat.lit_0_1) = true ->
  PyFloat.gt p PyFloat.lit_0_1 = false.
Proof.
  unfold PyFloat.lt, PyFloat.gt, PyFloat.lit_0_1, SFltb, SFopp, SFcompare.
  destruct p as [s | [|] | | [|] m e]; intros H; try reflexivity; discriminate H.
Qed.

(** C1. The label of a polarity [p] is "Positive" exactly when [p > 0.1],
    "Negative" exactly when [p < -0.1] and "Neutral" in every other case;
    the two thresholds themselves get "Neutral". *)
Theorem sentiment_thresholds (p : spec_float) :
  (sentiment_of p = "Positive" <-> PyFloat.gt p PyFloat.lit_0_1 = true)
  /\ (sentiment_of p = "Negative"
      <-> PyFloat.lt p (SFopp PyFloat.lit_0_1) = true)
  /\ (sentiment_of p = "Neutral"
      <-> PyFloat.gt p PyFloat.lit_0_1 = false
          /\ PyFloat.lt p (SFopp PyFloat.lit_0_1) = false)
  /\ sentiment_of PyFloat.lit_0_1 = "Neutral"
  /\ sentiment_of (SFopp PyFloat.lit_0_1) = "Neutral".
Proof.
  pose proof (lt_neg_not_gt p) as Hsign.
  unfold sentiment_of.
  destruct (PyFloat.gt p PyFloat.lit_0_1) eqn:Hgt;
    destruct (PyFloat.lt p (SFopp PyFloat.lit_0_1)) eqn:Hlt;
    try (specialize (Hsign eq_refl); discriminate Hsign);
    repeat split; intros; try reflexivity;
    try discriminate; try (destruct H; discriminate).
Qed.

(** ** The loop *)

Section LoopFacts.

Variable polarity_of : string -> spec_float.
Variable str_other : pyval -> string.

Local Abbreviation analyze := (analyze_article polarity_of str_other).
Local Abbreviation loop := (analyze_loop polarity_of str_other).
Local Abbreviation row := (row_of polarity_of str_other).

Lemma analyze_well_formed (article : pyval) :
  well_formed article = true ->
  analyze article = Ok (if has_title article then Some (row article) else None).
Proof.
  destruct article as [| | | | | |m]; try discriminate.
  unfold well_formed, analyze_article, has_title, row_of, row_with, text_of.
  cbn [py_get field mbind res_bind].
  destruct (m !! "source") as [[| | | | | |sm]|] eqn:Hsrc; try discriminate;
    intros _; cbn [default py_get field mbind res_bind];
    destruct (truthy _); reflexivity.
Qed.

Lemma analyze_ill_formed (article : pyval) :
  well_formed article = false ->
  exists msg, analyze article = Raise (Exc AttributeError msg).
Proof.
  destruct article as [| | | | | |m]; try (intros _; eexists; reflexivity).
  unfold well_formed, analyze_article. cbn [py_get mbind res_bind].
  destruct (m !! "source") as [[| | | | | |sm]|]; try discriminate;
    intros _; eexists; reflexivity.
Qed.

Lemma analyze_ok_inv (article : pyval) (r : option analyzed) :
  analyze article = Ok r ->
  well_formed article = true
  /\ r = (if has_title article then Some (row article) else None).
Proof.
  intros H. destruct (well_formed article) eqn:Hwf.
  - rewrite (analyze_well_formed _ Hwf) in H. split; congruence.
  - destruct (analyze_ill_formed _ Hwf) as [msg Hmsg]. congruence.
Qed.

Lemma filter_has_title_cons (article : pyval) (l : list pyval) :
  filter has_title (article :: l)
  = if has_title article then article :: filter has_title l
    else filter has_title l.
Proof.
  destruct (has_title article) eqn:H.
  - apply filter_cons_True. rewrite H. exact I.
  - apply filter_cons_False. rewrite H. exact id.
Qed.

(** On well-formed articles the loop appends, in order, the rows of the
    articles that have a title. *)
Lemma loop_well_formed (l : list pyval) (acc : list analyzed) :
  Forall (fun a => well_formed a = true) l ->
  loop l acc = Ok (acc ++ (row <$> filter has_title l))%list.
Proof.
  intros Hwf. revert acc.
  induction Hwf as [|a l Ha _ IH]; intros acc.
  - cbn. rewrite app_nil_r. reflexivity.
  - cbn [analyze_loop]. rewrite (analyze_well_formed a Ha).
    cbn [mbind res_bind]. rewrite filter_has_title_cons.
    destruct (has_title a).
    + rewrite IH, fmap_cons, <- app_assoc. reflexivity.
    + apply IH.
Qed.

(** The loop stops at the first article on which the body raises. *)
Lemma loop_raises (pre post : list pyval) (a : pyval) (e : exc)
    (acc : list analyzed) :
  Forall (fun a => well_formed a = true) pre ->
  analyze a = Raise e ->
  loop (pre ++ a :: post) acc = Raise e.
Proof.
  intros Hwf Ha. revert acc.
  induction Hwf as [|b pre Hb _ IH]; intros acc.
  - cbn [app analyze_loop]. rewrite Ha. reflexivity.
  - cbn [app analyze_loop]. rewrite (analyze_well_formed b Hb).
    cbn [mbind res_bind]. apply IH.
Qed.

Lemma loop_ok_inv (l : list pyval) (acc rows : list analyzed) :
  loop l acc = Ok rows ->
  Forall (fun a => well_formed a = true) l.
Proof.
  revert acc. induction l as [|a l IH]; intros acc H; [constructor |].
  cbn [analyze_loop] in H.
  destruct (analyze a) as [r|e] eqn:Ha; [| discriminate H].
  apply analyze_ok_inv in Ha as [Hwf _].
  cbn [mbind res_bind] in H. constructor; [exact Hwf | eapply IH, H].
Qed.

End LoopFacts.

(** ** The whole run *)

Section RunFacts.

Variable requests_get : string -> res pyval.
Variable polarity_of : string -> spec_float.
Variable str_other : pyval -> string.

Local Abbreviation run :=
  (fetch_and_analyze_news requests_get polarity_of str_other).
Local Abbreviation loop := (analyze_loop polarity_of str_other).
Local Abbreviation row := (row_of polarity_of str_other).

Lemma loop_on_str (s : string) (rest : list pyval) (acc : list analyzed) :
  loop (PStr s :: rest) acc
  = Raise (Exc AttributeError "'str' object has no attribute 'get'").
Proof. reflexivity. Qed.

Lemma truthy_dict_keys (m : gmap string pyval) :
  truthy (PDict m) = true ->
  exists k ks, PStr <$> (map_to_list m).*1 = PStr k :: ks.
Proof.
  cbn [truthy]. destruct (map_to_list m) as [|[k v] kvs] eqn:Hl.
  - apply map_to_list_empty_iff in Hl. subst m.
    rewrite map_size_empty. discriminate.
  - intros _. exists k. eexists. reflexivity.
Qed.

Lemma truthy_list (l : list pyval) : truthy (PList l) = false -> l = [].
Proof. destruct l; [reflexivity | discriminate]. Qed.

(** A response whose articles are a list of well-formed articles: the run
    returns, in order, the rows of the articles that have a title. *)
Lemma run_on_articles (api_key query : string) (m : gmap string pyval)
    (l : list pyval) :
  requests_get (request_url api_key query) = Ok (PDict m) ->
  m !! "articles" = Some (PList l) ->
  Forall (fun a => well_formed a = true) l ->
  run api_key query
  = (Ok (row <$> filter has_title l),
     HttpGet (request_url api_key query)
     :: match l with
        | [] => [Warning "No articles found for this query."]
        | _ => []
        end).
Proof.
  intros Hget Hart Hwf. unfold fetch_and_analyze_news, try_block.
  rewrite Hget. cbn [mbind res_bind py_get]. rewrite Hart.
  cbn [default from_option id].
  destruct l as [|a l]; [reflexivity |].
  cbn [truthy length Nat.eqb negb py_iter mbind res_bind].
  rewrite (loop_well_formed _ _ _ _ Hwf). reflexivity.
Qed.

(** Whenever the run returns rows, they are the rows of the raw articles
    that have a title, in the order of the response. *)
Lemma run_returned (api_key query : string) (rows : list analyzed)
    (evs : list event) :
  run api_key query = (Ok rows, evs) ->
  rows = row <$> filter has_title
                   (raw_articles (requests_get (request_url api_key query))).
Proof.
  unfold fetch_and_analyze_news, try_block.
  destruct (requests_get (request_url api_key query)) as [data|e];
    cbn [mbind res_bind raw_articles].
  - destruct data as [| | | | | |m]; cbn [py_get exc_cls]; try discriminate.
    destruct (m !! "articles") as [v|]; cbn [default from_option id];
      [| intros [= <- _]; reflexivity].
    destruct (truthy v) eqn:Hv; cbn [negb].
    + destruct v as [| | | |s|l|m']; cbn [py_iter mbind res_bind];
        try discriminate.
      * destruct s as [|c s]; [discriminate Hv |].
        cbn [list_ascii_of_string fmap list_fmap]. rewrite loop_on_str.
        discriminate.
      * intros [= Hloop _].
        pose proof (loop_ok_inv _ _ _ _ _ Hloop) as Hwf.
        rewrite (loop_well_formed _ _ _ _ Hwf) in Hloop.
        injection Hloop as <-. reflexivity.
      * destruct (truthy_dict_keys _ Hv) as (k & ks & ->).
        rewrite loop_on_str. discriminate.
    + intros [= <- _]. destruct v; try reflexivity.
      rewrite (truthy_list _ Hv). reflexivity.
  - destruct e as [[| | |] msg]; cbn [exc_cls]; try discriminate.
    intros [= <- _]. reflexivity.
Qed.

End RunFacts.

(** ** Title filter and order *)

Lemma row_title (polarity_of : string -> spec_float)
    (str_other : pyval -> string) (a : pyval) :
  truthy (title (row_of polarity_of str_other a)) = has_title a.
Proof. reflexivity. Qed.

(** C3. In every run that returns a ResultSet, the number of rows is the
    number of raw articles that have a title, every row has a title, every
    row is the row of a raw article that has one, and the row of a raw
    article without a title is not among them.  The run does return when the
    response holds a list of well-formed articles. *)
Theorem title_filter (requests_get : string -> res pyval)
    (polarity_of : string -> spec_float) (str_other : pyval -> string)
    (api_key query : string) :
  let raw := raw_articles (requests_get (request_url api_key query)) in
  let run := fetch_and_analyze_news requests_get polarity_of str_other
               api_key query in
  (forall rows evs, run = (Ok rows, evs) ->
     length rows = length (filter has_title raw)
     /\ Forall (fun r => truthy (title r) = true) rows
     /\ (forall r, r ∈ rows ->
           exists a, a ∈ raw /\ has_title a = true
                     /\ r = row_of polarity_of str_other a)
     /\ (forall a, a ∈ raw -> has_title a = false ->
           row_of polarity_of str_other a ∉ rows))
  /\ (forall m l, requests_get (request_url api_key query) = Ok (PDict m) ->
        m !! "articles" = Some (PList l) ->
        Forall (fun a => well_formed a = true) l ->
        exists rows evs, run = (Ok rows, evs)
                         /\ length rows = length (filter has_title l)).
Proof.
  intros raw run. split.
  - intros rows evs Hrun. apply run_returned in Hrun. fold raw in Hrun.
    assert (Htitled : Forall (fun r => truthy (title r) = true) rows).
    { subst rows. apply Forall_fmap, Forall_forall. intros a Ha.
      apply list_elem_of_filter in Ha as [Ha _]. unfold compose.
      rewrite row_title. destruct (has_title a); [reflexivity | destruct Ha]. }
    split; [subst rows; apply length_fmap |].
    split; [exact Htitled |]. split.
    + intros r Hr. subst rows.
      apply list_elem_of_fmap in Hr as (a & -> & Ha).
      apply list_elem_of_filter in Ha as [Ht Ha]. exists a.
      split; [exact Ha |]. split; [| reflexivity].
      destruct (has_title a); [reflexivity | destruct Ht].
    + intros a _ Hno Hin. rewrite Forall_forall in Htitled.
      specialize (Htitled _ Hin). rewrite row_title in Htitled. congruence.
  - intros m l Hget Hart Hwf. do 2 eexists.
    split; [eapply run_on_articles; eassumption | apply length_fmap].
Qed.

(** C6. In every run that returns a ResultSet, the rows are the rows of the
    raw articles that have a title, taken in the order of the raw list:
    they come from a subsequence of it.  The run does return when the
    response holds a list of well-formed articles. *)
Theorem order_preserved (requests_get : string -> res pyval)
    (polarity_of : string -> spec_float) (str_other : pyval -> string)
    (api_key query : string) :
  let raw := raw_articles (requests_get (request_url api_key query)) in
  let run := fetch_and_analyze_news requests_get polarity_of str_other
               api_key query in
  (forall rows evs, run = (Ok rows, evs) ->
     exists kept, kept `sublist_of` raw
       /\ kept = filter has_title raw
       /\ rows = row_of polarity_of str_other <$> kept)
  /\ (forall m l, requests_get (request_url api_key query) = Ok (PDict m) ->
        m !! "articles" = Some (PList l) ->
        Forall (fun a => well_formed a = true) l ->
        exists evs, run = (Ok (row_of polarity_of str_other
                                 <$> filter has_title l), evs)).
Proof.
  intros raw run. split.
  - intros rows evs Hrun. apply run_returned in Hrun.
    exists (filter has_title raw). split; [apply sublist_filter |].
    split; [reflexivity | exact Hrun].
  - intros m l Hget Hart Hwf. eexists. eapply run_on_articles; eassumption.
Qed.

(** ** The two empty outcomes *)

(** C5. When the response has no "articles" field, or has the empty list
    there, the run returns no rows and shows the warning, not the error. *)
Theorem no_articles_warning (requests_get : string -> res pyval)
    (polarity_of : string -> spec_float) (str_other : pyval -> string)
    (api_key query : string) (m : gmap string pyval) :
  requests_get (request_url api_key query) = Ok (PDict m) ->
  m !! "articles" = None \/ m !! "articles" = Some (PList []) ->
  fetch_and_analyze_news requests_get polarity_of str_other api_key query
  = (Ok [], [HttpGet (request_url api_key query);
             Warning "No articles found for this query."]).
Proof.
  intros Hget Hart. unfold fetch_and_analyze_news, try_block.
  rewrite Hget. cbn [mbind res_bind py_get].
  destruct Hart as [-> | ->]; reflexivity.
Qed.

(** C4, as the code has it.  When the request or the decoding raises an
    exception of class RequestException (or of a subclass), the run returns
    no rows, shows one error message that ends with the text of the
    exception, and has made the one request. *)
Theorem request_exception_recovered (requests_get : string -> res pyval)
    (polarity_of : string -> spec_float) (str_other : pyval -> string)
    (api_key query msg : string) :
  requests_get (request_url api_key query) = Raise (Exc RequestException msg) ->
  let run := fetch_and_analyze_news requests_get polarity_of str_other
               api_key query in
  run = (Ok [], [HttpGet (request_url api_key query);
                 Error ("Error fetching news: " +:+ msg)])
  /\ requests_made run.2 = 1%nat.
Proof.
  intros Hget run. unfold run, fetch_and_analyze_news, try_block.
  rewrite Hget. split; reflexivity.
Qed.

(** An exception of another class leaves the function. *)
Lemma other_exception_propagates (requests_get : string -> res pyval)
    (polarity_of : string -> spec_float) (str_other : pyval -> string)
    (api_key query : string) (e : exc) :
  requests_get (request_url api_key query) = Raise e ->
  exc_cls e <> RequestException ->
  fetch_and_analyze_news requests_get polarity_of str_other api_key query
  = (Raise e, [HttpGet (request_url api_key query)]).
Proof.
  intros Hget Hcls. unfold fetch_and_analyze_news, try_block.
  rewrite Hget. cbn [mbind res_bind].
  destruct e as [[| | |] msg]; cbn [exc_cls] in *; congruence.
Qed.

(** C9. A response with an article whose "source" is null, after
    articles on which the loop body runs: the run raises AttributeError
    ([None] has no [get]) and the error message is not shown. *)
Theorem null_source_raises (requests_get : string -> res pyval)
    (polarity_of : string -> spec_float) (str_other : pyval -> string)
    (api_key query : string) (m a : gmap string pyval)
    (pre post : list pyval) :
  requests_get (request_url api_key query) = Ok (PDict m) ->
  m !! "articles" = Some (PList (pre ++ PDict a :: post)) ->
  Forall (fun a => well_formed a = true) pre ->
  a !! "source" = Some PNone ->
  fetch_and_analyze_news requests_get polarity_of str_other api_key query
  = (Raise (Exc AttributeError "'NoneType' object has no attribute 'get'"),
     [HttpGet (request_url api_key query)]).
Proof.
  intros Hget Hart Hpre Hsrc. unfold fetch_and_analyze_news, try_block.
  rewrite Hget. cbn [mbind res_bind py_get]. rewrite Hart.
  cbn [default from_option id].
  assert (truthy (PList (pre ++ PDict a :: post)) = true) as ->.
  { cbn [truthy]. rewrite length_app. cbn [length].
    destruct (length pre); reflexivity. }
  cbn [negb py_iter mbind res_bind].
  rewrite (loop_raises polarity_of str_other pre post (PDict a)
             (Exc AttributeError "'NoneType' object has no attribute 'get'"));
    [reflexivity | exact Hpre |].
  unfold analyze_article. cbn [py_get mbind res_bind]. rewrite Hsrc.
  reflexivity.
Qed.

(** ** Score and label of a row *)

(** The rows of the articles that have a title, taken one by one: each is
    the row of its article, with the polarity of the article's text rounded
    for the score and not rounded for the label. *)
Lemma rows_follow_articles (polarity_of : string -> spec_float)
    (str_other : pyval -> string) (l : list pyval) :
  Forall2
    (fun a r =>
       r = row_of polarity_of str_other a
       /\ has_title a = true
       /\ title r = field a "title" (PStr "")
       /\ sentiment_score r
          = PyFloat.round3 (polarity_of (text_of str_other a))
       /\ sentiment_label r
          = sentiment_of (polarity_of (text_of str_other a)))
    (filter has_title l)
    (row_of polarity_of str_other <$> filter has_title l).
Proof.
  induction l as [|a l IH]; [constructor |].
  rewrite filter_has_title_cons. destruct (has_title a) eqn:Ha; [| exact IH].
  rewrite fmap_cons. constructor; [| exact IH].
  repeat split. exact Ha.
Qed.

(** C2, as the code has it.  In every run that returns a ResultSet, the
    rows answer one by one, in order, to the raw articles that have a
    title (the processed articles): each row is the row of its article, its
    stored score is the polarity of that article's text rounded to 3
    decimals, and its label is the bucket of the polarity as the scorer
    returned it, before rounding.  The run does return when the response
    holds a list of well-formed articles. *)
Theorem label_from_unrounded_polarity (requests_get : string -> res pyval)
    (polarity_of : string -> spec_float) (str_other : pyval -> string)
    (api_key query : string) :
  let raw := raw_articles (requests_get (request_url api_key query)) in
  let run := fetch_and_analyze_news requests_get polarity_of str_other
               api_key query in
  let processed a r :=
    r = row_of polarity_of str_other a
    /\ has_title a = true
    /\ title r = field a "title" (PStr "")
    /\ sentiment_score r
       = PyFloat.round3 (polarity_of (text_of str_other a))
    /\ sentiment_label r
       = sentiment_of (polarity_of (text_of str_other a)) in
  (forall rows evs, run = (Ok rows, evs) ->
     Forall2 processed (filter has_title raw) rows)
  /\ (forall m l, requests_get (request_url api_key query) = Ok (PDict m) ->
        m !! "articles" = Some (PList l) ->
        Forall (fun a => well_formed a = true) l ->
        exists rows evs,
          run = (Ok rows, evs)
          /\ Forall2 processed (filter has_title l) rows).
Proof.
  intros raw run processed. split.
  - intros rows evs Hrun. apply run_returned in Hrun. fold raw in Hrun.
    subst rows. apply rows_follow_articles.
  - intros m l Hget Hart Hwf. do 2 eexists.
    split; [eapply run_on_articles; eassumption |].
    apply rows_follow_articles.
Qed.

(** ** The text given to the scorer *)

Lemma append_cons (c : ascii) (s u : string) :
  String c s +:+ u = String c (s +:+ u).
Proof. reflexivity. Qed.

Lemma append_empty (u : string) : "" +:+ u = u.
Proof. reflexivity. Qed.

Lemma rstrip_append (s u : string) :
  u <> "" -> rstrip u = u -> rstrip (s +:+ u) = s +:+ u.
Proof.
  intros Hne Hu. induction s as [|c s IH]; [exact Hu |].
  rewrite append_cons. cbn [rstrip]. rewrite IH.
  destruct (s +:+ u) eqn:Hsu; [| reflexivity].
  destruct s; [rewrite append_empty in Hsu; contradiction | discriminate Hsu].
Qed.

Lemma length_rstrip (s : string) :
  (String.length (rstrip s) <= String.length s)%nat.
Proof.
  induction s as [|c s IH]; [reflexivity |]. cbn [rstrip].
  destruct (rstrip s) as [|d r].
  - destruct (py_isspace c); cbn [String.length]; lia.
  - cbn [String.length] in *. lia.
Qed.

Lemma length_lstrip (s : string) :
  (String.length (lstrip s) <= String.length s)%nat.
Proof.
  induction s as [|c s IH]; [reflexivity |]. cbn [lstrip].
  destruct (py_isspace c); cbn [String.length]; lia.
Qed.

Lemma length_strip (s : string) :
  (String.length (strip s) <= String.length s)%nat.
Proof.
  unfold strip. pose proof (length_rstrip (lstrip s)).
  pose proof (length_lstrip s). lia.
Qed.

Lemma length_append (s u : string) :
  String.length (s +:+ u) = (String.length s + String.length u)%nat.
Proof.
  induction s as [|c s IH]; [reflexivity |].
  rewrite append_cons. cbn [String.length]. rewrite IH. reflexivity.
Qed.

(** A text that begins with a character other than a space and ends with
    [u], itself not changed by [rstrip], is its own [strip]. *)
Lemma strip_append (c : ascii) (s u : string) :
  py_isspace c = false -> u <> "" -> rstrip u = u ->
  strip (String c s +:+ u) = String c s +:+ u.
Proof.
  intros Hc Hne Hu. unfold strip.
  replace (lstrip (String c s +:+ u)) with (String c s +:+ u)
    by (rewrite append_cons; cbn [lstrip]; rewrite Hc; reflexivity).
  apply rstrip_append; assumption.
Qed.

Lemma truthy_str (t : string) : t <> "" -> truthy (PStr t) = true.
Proof. destruct t; [contradiction | reflexivity]. Qed.

(** C7, as the code has it.  For an article with a title (a value that is
    true; for a str, a non-empty one) and a well-formed source, the text
    given to the scorer is the title as [str] writes it, one space and the
    description as [str] writes it (the empty string when the description
    is absent), stripped of leading and trailing whitespace.  For a title
    and a description that are strs these are the two strings themselves. *)
Theorem text_given_to_scorer (polarity_of : string -> spec_float)
    (str_other : pyval -> string) (m : gmap string pyval) (tv dv : pyval) :
  m !! "title" = Some tv ->
  truthy tv = true ->
  (m !! "description" = None /\ dv = PStr "") \/ m !! "description" = Some dv ->
  well_formed (PDict m) = true ->
  analyze_article polarity_of str_other (PDict m)
  = Ok (Some (row_with (PDict m)
                (polarity_of
                   (strip (py_str str_other tv +:+ " "
                           +:+ py_str str_other dv)))))
  /\ (forall t d, tv = PStr t -> dv = PStr d ->
        text_of str_other (PDict m) = strip (t +:+ " " +:+ d)).
Proof.
  intros Ht Htrue Hd Hwf.
  assert (Htext : text_of str_other (PDict m)
                  = strip (py_str str_other tv +:+ " " +:+ py_str str_other dv)).
  { unfold text_of, build_text. cbn [field]. rewrite Ht.
    destruct Hd as [[-> ->] | ->]; reflexivity. }
  split.
  - rewrite (analyze_well_formed _ _ _ Hwf). unfold row_of. rewrite Htext.
    unfold has_title. cbn [field]. rewrite Ht. cbn [default from_option id].
    rewrite Htrue. reflexivity.
  - intros t d -> ->. exact Htext.
Qed.

(** C10. For an article with a non-empty title that begins with a
    character other than whitespace, a well-formed source and a description
    that is null, the text given to the scorer is the title, a space and
    the word None; it is not the text built with an empty description. *)
Theorem null_description_text (polarity_of : string -> spec_float)
    (str_other : pyval -> string) (m : gmap string pyval)
    (c : ascii) (t : string) :
  m !! "title" = Some (PStr (String c t)) ->
  py_isspace c = false ->
  m !! "description" = Some PNone ->
  well_formed (PDict m) = true ->
  analyze_article polarity_of str_other (PDict m)
  = Ok (Some (row_with (PDict m) (polarity_of (String c t +:+ " None"))))
  /\ text_of str_other (PDict m) = String c t +:+ " None"
  /\ text_of str_other (PDict m) <> strip (String c t +:+ " " +:+ "").
Proof.
  intros Ht Hc Hd Hwf.
  assert (Htext : text_of str_other (PDict m) = String c t +:+ " None").
  { unfold text_of, build_text. cbn [field]. rewrite Ht, Hd.
    cbn [default from_option id py_str].
    apply (strip_append c t " None" Hc); [discriminate | reflexivity]. }
  split; [| split; [exact Htext |]].
  - rewrite (analyze_well_formed _ _ _ Hwf). unfold row_of. rewrite Htext.
    unfold has_title. cbn [field]. rewrite Ht. reflexivity.
  - rewrite Htext. intros Heq.
    pose proof (length_strip (String c t +:+ " " +:+ "")) as Hlen.
    rewrite <- Heq, !length_append in Hlen. cbn [String.length] in Hlen. lia.
Qed.

(** ** The cache *)

Section CacheFacts.

Variable network : Q -> string -> res pyval.
Variable polarity_of : string -> spec_float.
Variable str_other : pyval -> string.

Local Abbreviation call := (cached_fetch network polarity_of str_other).
Local Abbreviation after := (cache_after network polarity_of str_other).

(** Every run of the body makes the one request. *)
Lemma run_requests_once (requests_get : string -> res pyval)
    (api_key query : string) :
  requests_made
    (fetch_and_analyze_news requests_get polarity_of str_other
       api_key query).2 = 1%nat.
Proof.
  unfold fetch_and_analyze_news.
  destruct (try_block requests_get (request_url api_key query)) as [v|e].
  - destruct (negb (truthy v)); reflexivity.
  - destruct (exc_cls e); reflexivity.
Qed.

Lemma messages_no_request (evs : list event) :
  requests_made (filter is_message evs) = 0%nat.
Proof.
  unfold requests_made. induction evs as [|ev evs IH]; [reflexivity |].
  destruct ev; cbn in *; exact IH.
Qed.

Lemma call_hit (now : Q) (api_key query : string)
    (cache : gmap (string * string) cache_entry) (entry : cache_entry) :
  cache !! (api_key, query) = Some entry ->
  (now < stored_at entry + ttl)%Q ->
  call now api_key query cache
  = (Ok (cached_rows entry), cached_messages entry, cache).
Proof.
  intros Hentry Hfresh. unfold cached_fetch. rewrite Hentry.
  destruct (Qlt_le_dec now (stored_at entry + ttl)) as [_|Hle];
    [reflexivity |].
  exfalso. exact (Qlt_not_le _ _ Hfresh Hle).
Qed.

Lemma call_miss (now : Q) (api_key query : string)
    (cache : gmap (string * string) cache_entry) :
  (forall entry, cache !! (api_key, query) = Some entry ->
                 (stored_at entry + ttl <= now)%Q) ->
  call now api_key query cache
  = match fetch_and_analyze_news (network now) polarity_of str_other
            api_key query with
    | (Ok rows, evs) =>
        (Ok rows, evs,
         <[(api_key, query) := CacheEntry now rows (filter is_message evs)]>
           cache)
    | (Raise e, evs) => (Raise e, evs, cache)
    end.
Proof.
  intros Hstale. unfold cached_fetch.
  destruct (cache !! (api_key, query)) as [entry|]; [| reflexivity].
  destruct (Qlt_le_dec now (stored_at entry + ttl)) as [Hlt|_];
    [| reflexivity].
  exfalso. exact (Qlt_not_le _ _ Hlt (Hstale entry eq_refl)).
Qed.

(** A call leaves the entries of the other keys as they are. *)
Lemma call_other_key (now : Q) (api_key query : string) (key : string * string)
    (cache : gmap (string * string) cache_entry) :
  key <> (api_key, query) ->
  (call now api_key query cache).2 !! key = cache !! key.
Proof.
  intros Hne. unfold cached_fetch.
  assert (Hrun :
    (match fetch_and_analyze_news (network now) polarity_of str_other
             api_key query with
     | (Ok rows, evs) =>
         (Ok rows, evs,
          <[(api_key, query) := CacheEntry now rows (filter is_message evs)]>
            cache)
     | (Raise e, evs) => (Raise e, evs, cache)
     end).2 !! key = cache !! key).
  { destruct (fetch_and_analyze_news _ _ _ _ _) as [[rows|e] evs];
      cbn [snd]; [| reflexivity].
    apply lookup_insert_ne. congruence. }
  destruct (cache !! (api_key, query)) as [entry|]; [| exact Hrun].
  destruct (Qlt_le_dec now (stored_at entry + ttl)); [reflexivity | exact Hrun].
Qed.

(** An entry stays as it is through calls made while it is valid. *)
Lemma entry_kept (calls : list (Q * (string * string)))
    (cache : gmap (string * string) cache_entry) (key : string * string)
    (entry : cache_entry) :
  cache !! key = Some entry ->
  Forall (fun c => (c.1 < stored_at entry + ttl)%Q) calls ->
  after calls cache !! key = Some entry.
Proof.
  intros Hentry Hcalls. revert cache Hentry.
  induction Hcalls as [|[now [k q]] calls Hnow _ IH]; intros cache Hentry;
    [exact Hentry |].
  cbn [cache_after]. apply IH.
  destruct (decide (key = (k, q))) as [-> | Hne].
  - rewrite (call_hit now k q cache entry Hentry Hnow). exact Hentry.
  - rewrite call_other_key; assumption.
Qed.

Lemma call_miss_requests_once (now : Q) (api_key query : string)
    (cache : gmap (string * string) cache_entry) :
  (forall entry, cache !! (api_key, query) = Some entry ->
                 (stored_at entry + ttl <= now)%Q) ->
  requests_made (call now api_key query cache).1.2 = 1%nat.
Proof.
  intros Hstale. rewrite (call_miss _ _ _ _ Hstale).
  pose proof (run_requests_once (network now) api_key query) as Hone.
  destruct (fetch_and_analyze_news _ _ _ _ _) as [[rows|e] evs]; exact Hone.
Qed.

(** C8. A call that finds no valid entry runs the body, with its one
    request, and stores the rows it returns.  A later call with the same
    credential and query made less than 600 seconds after that one, whatever
    calls came between them in that time, returns the same rows without a
    request, even if the network would now answer otherwise.  A call made
    more than 600 seconds after, or one with another query that has no
    entry, makes a request. *)
Theorem cache_within_ttl (t0 t1 : Q) (api_key query : string)
    (cache cache1 : gmap (string * string) cache_entry)
    (rows : list analyzed) (evs : list event)
    (between : list (Q * (string * string))) :
  (forall entry, cache !! (api_key, query) = Some entry ->
                 (stored_at entry + ttl <= t0)%Q) ->
  call t0 api_key query cache = (Ok rows, evs, cache1) ->
  Forall (fun c => (c.1 < t0 + ttl)%Q) between ->
  requests_made evs = 1%nat
  /\ ((t1 < t0 + ttl)%Q ->
      exists msgs,
        call t1 api_key query (after between cache1)
        = (Ok rows, msgs, after between cache1)
        /\ requests_made msgs = 0%nat)
  /\ ((t0 + ttl < t1)%Q ->
      requests_made (call t1 api_key query cache1).1.2 = 1%nat)
  /\ (forall query', query' <> query -> cache !! (api_key, query') = None ->
      requests_made (call t1 api_key query' cache1).1.2 = 1%nat).
Proof.
  intros Hstale Hcall Hbetween.
  pose proof (call_miss_requests_once t0 api_key query cache Hstale) as Hone.
  rewrite Hcall in Hone. cbn [fst snd] in Hone.
  rewrite (call_miss _ _ _ _ Hstale) in Hcall.
  destruct (fetch_and_analyze_news _ _ _ _ _) as [[rows0|e] evs0];
    [| discriminate Hcall].
  injection Hcall as <- <- <-.
  set (entry := CacheEntry t0 rows0 (filter is_message evs0)).
  split; [exact Hone |]. split; [| split].
  - intros Hfresh. exists (filter is_message evs0).
    split; [| apply messages_no_request].
    apply (call_hit t1 api_key query _ entry); [| exact Hfresh].
    apply entry_kept; [apply lookup_insert_eq | exact Hbetween].
  - intros Hlate. apply call_miss_requests_once. intros en Hen.
    rewrite lookup_insert_eq in Hen. injection Hen as <-.
    apply Qlt_le_weak. exact Hlate.
  - intros query' Hne Hnone. apply call_miss_requests_once. intros en Hen.
    rewrite lookup_insert_ne in Hen by congruence. congruence.
Qed.

End CacheFacts.

(** * Concrete runs *)

Import Sample.

Local Abbreviation target := (request_url "key" "topic").

(** C2 as stated fails: with a scorer that returns [0.1004] the row has the
    label "Positive" and the stored score [0.1], whose bucket is
    "Neutral". *)
Lemma rounded_score_not_bucketed :
  exists r,
    fetch_and_analyze_news (serve (response [article_hello]))
      scorer_0_1004 no_str_other "key" "topic"
    = (Ok [r], [HttpGet target])
    /\ sentiment_score r = PyFloat.lit_0_1
    /\ sentiment_label r = "Positive"
    /\ sentiment_of (sentiment_score r) = "Neutral"
    /\ sentiment_label r <> sentiment_of (sentiment_score r).
Proof.
  eexists. split; [vm_compute; reflexivity |].
  cbn [sentiment_score sentiment_label].
  repeat split; try (vm_compute; reflexivity). vm_compute. discriminate.
Qed.

Lemma label_from_unrounded_polarity_witness :
  Forall2
    (fun a r =>
       r = row_of scorer_0_1004 no_str_other a
       /\ has_title a = true
       /\ title r = field a "title" (PStr "")
       /\ sentiment_score r
          = PyFloat.round3 (scorer_0_1004 (text_of no_str_other a))
       /\ sentiment_label r
          = sentiment_of (scorer_0_1004 (text_of no_str_other a)))
    [article_hello; article_bare]
    [row_with article_hello f_0_1004; row_with article_bare f_0_1004]
  /\ PyFloat.round3 f_0_1004 = PyFloat.lit_0_1
  /\ sentiment_of f_0_1004 = "Positive".
Proof.
  destruct (label_from_unrounded_polarity (serve (response [article_hello; article_untitled; article_bare]))
              scorer_0_1004 no_str_other "key" "topic") as [Hret Hruns].
  destruct (Hruns {[ "articles" := PList [article_hello; article_untitled; article_bare] ]} [article_hello; article_untitled; article_bare] eq_refl)
    as (rows & evs & Hrun & _).
  - vm_compute. reflexivity.
  - repeat constructor.
  - specialize (Hret rows evs Hrun).
    assert (rows = [row_with article_hello f_0_1004;
                    row_with article_bare f_0_1004]) as ->.
    { assert (Hrun' : fetch_and_analyze_news (serve (response [article_hello; article_untitled; article_bare]))
                        scorer_0_1004 no_str_other "key" "topic"
                      = (Ok [row_with article_hello f_0_1004;
                             row_with article_bare f_0_1004],
                         [HttpGet target]))
        by (vm_compute; reflexivity).
      rewrite Hrun' in Hrun. injection Hrun as <- _. reflexivity. }
    split; [exact Hret |]. split; vm_compute; reflexivity.
Defined.

(** C4 as stated fails: an exception raised while decoding that is not a
    RequestException leaves the function; no rows are returned and no error
    message is shown. *)
Lemma non_request_exception_not_recovered :
  fetch_and_analyze_news (fail_with recursion_error)
    neutral_scorer no_str_other "key" "topic"
  = (Raise recursion_error, [HttpGet target])
  /\ fetch_and_analyze_news (fail_with recursion_error)
       neutral_scorer no_str_other "key" "topic"
     <> (Ok [], [HttpGet target;
                 Error ("Error fetching news: " +:+ exc_str recursion_error)]).
Proof. split; [reflexivity | discriminate]. Qed.

Lemma request_exception_recovered_witness :
  fetch_and_analyze_news (fail_with connection_error)
    neutral_scorer no_str_other "key" "topic"
  = (Ok [], [HttpGet target; Error "Error fetching news: Connection refused"])
  /\ requests_made
       (fetch_and_analyze_news (fail_with connection_error)
          neutral_scorer no_str_other "key" "topic").2 = 1%nat.
Proof.
  exact (request_exception_recovered (fail_with connection_error)
           neutral_scorer no_str_other "key" "topic" "Connection refused"
           eq_refl).
Defined.

(** C7 as stated fails: for the title "Hello" and the description "World"
    the scorer is given "Hello World", not the concatenation
    "HelloWorld". *)
Lemma text_not_plain_concatenation :
  analyze_article probe_scorer no_str_other article_hello
  = Ok (Some (row_with article_hello (probe_scorer "Hello World")))
  /\ strip ("Hello" +:+ "World") = "HelloWorld"
  /\ analyze_article probe_scorer no_str_other article_hello
     <> Ok (Some (row_with article_hello
                    (probe_scorer (strip ("Hello" +:+ "World"))))).
Proof.
  split; [vm_compute; reflexivity |]. split; [reflexivity |].
  vm_compute. discriminate.
Qed.

Lemma text_given_to_scorer_witness :
  analyze_article probe_scorer no_str_other article_hello
  = Ok (Some (row_with article_hello (probe_scorer "Hello World")))
  /\ text_of no_str_other article_hello = "Hello World".
Proof.
  destruct (text_given_to_scorer probe_scorer no_str_other
              (list_to_map
                 [("title", PStr "Hello"); ("description", PStr "World");
                  ("url", PStr "https://example.org/1"); ("source", src "Wire")])
              (PStr "Hello") (PStr "World")) as [Hrow Htext].
  - vm_compute. reflexivity.
  - reflexivity.
  - right. vm_compute. reflexivity.
  - vm_compute. reflexivity.
  - split; [exact Hrow | exact (Htext "Hello" "World" eq_refl eq_refl)].
Defined.

Local Abbreviation three :=
  [article_hello; article_untitled; article_bare].

Lemma title_filter_witness :
  exists rows evs,
    fetch_and_analyze_news (serve (response three))
      neutral_scorer no_str_other "key" "topic" = (Ok rows, evs)
    /\ length rows = 2%nat
    /\ Forall (fun r => truthy (title r) = true) rows
    /\ row_of neutral_scorer no_str_other article_untitled ∉ rows.
Proof.
  destruct (title_filter (serve (response three))
              neutral_scorer no_str_other "key" "topic") as [Hret Hruns].
  destruct (Hruns {[ "articles" := PList three ]} three eq_refl)
    as (rows & evs & Hrun & Hlen).
  - vm_compute. reflexivity.
  - repeat constructor.
  - exists rows, evs. destruct (Hret rows evs Hrun) as (_ & Ht & _ & Hout).
    split; [exact Hrun |]. split; [rewrite Hlen; vm_compute; reflexivity |].
    split; [exact Ht |]. apply Hout; [| vm_compute; reflexivity].
    apply list_elem_of_further, list_elem_of_here.
Defined.

Lemma order_preserved_witness :
  exists evs,
    fetch_and_analyze_news (serve (response three))
      neutral_scorer no_str_other "key" "topic"
    = (Ok [row_of neutral_scorer no_str_other article_hello;
           row_of neutral_scorer no_str_other article_bare], evs).
Proof.
  destruct (order_preserved (serve (response three))
              neutral_scorer no_str_other "key" "topic") as [_ Hruns].
  destruct (Hruns {[ "articles" := PList three ]} three eq_refl)
    as (evs & Hrun).
  - vm_compute. reflexivity.
  - repeat constructor.
  - exists evs. rewrite Hrun. vm_compute. reflexivity.
Defined.

Lemma no_articles_warning_witness :
  fetch_and_analyze_news (serve (response []))
    neutral_scorer no_str_other "key" "topic"
  = (Ok [], [HttpGet target; Warning "No articles found for this query."])
  /\ fetch_and_analyze_news (serve (PDict ∅))
       neutral_scorer no_str_other "key" "topic"
     = (Ok [], [HttpGet target; Warning "No articles found for this query."]).
Proof.
  split.
  - apply (no_articles_warning (serve (response [])) neutral_scorer
             no_str_other "key" "topic" {[ "articles" := PList [] ]} eq_refl).
    right. vm_compute. reflexivity.
  - apply (no_articles_warning (serve (PDict ∅)) neutral_scorer
             no_str_other "key" "topic" ∅ eq_refl).
    left. vm_compute. reflexivity.
Defined.

Lemma null_source_raises_witness :
  fetch_and_analyze_news
    (serve (response [article_hello; article_null_source; article_bare]))
    neutral_scorer no_str_other "key" "topic"
  = (Raise (Exc AttributeError "'NoneType' object has no attribute 'get'"),
     [HttpGet target]).
Proof.
  refine (null_source_raises
            (serve (response [article_hello; article_null_source; article_bare]))
            neutral_scorer no_str_other "key" "topic"
            {[ "articles" :=
                 PList [article_hello; article_null_source; article_bare] ]}
            (list_to_map
               [("title", PStr "Storm"); ("description", PStr "Rain");
                ("url", PStr "https://example.org/4"); ("source", PNone)])
            [article_hello] [article_bare] eq_refl _ _ _).
  - vm_compute. reflexivity.
  - repeat constructor.
  - vm_compute. reflexivity.
Defined.

Lemma null_description_text_witness :
  analyze_article neutral_scorer no_str_other article_null_description
  = Ok (Some (row_with article_null_description
                (neutral_scorer "Storm None")))
  /\ text_of no_str_other article_null_description = "Storm None"
  /\ text_of no_str_other article_null_description
     <> strip ("Storm" +:+ " " +:+ "").
Proof.
  refine (null_description_text neutral_scorer no_str_other _ "S" "torm"
            _ _ _ _); vm_compute; reflexivity.
Defined.

Local Abbreviation hello_rows := [row_with article_hello (S754_zero false)].
Local Abbreviation hello_cache :=
  (<[("key", "topic") := CacheEntry 0 hello_rows []]>
     (∅ : gmap (string * string) cache_entry)).
Local Abbreviation cached :=
  (cached_fetch changing_network neutral_scorer no_str_other).

Lemma first_call :
  cached 0 "key" "topic" ∅ = (Ok hello_rows, [HttpGet target], hello_cache).
Proof. vm_compute. reflexivity. Qed.

Lemma cache_within_ttl_witness :
  exists msgs,
    cached 100 "key" "topic"
      (cache_after changing_network neutral_scorer no_str_other
         [(60%Q, ("key", "other"))] hello_cache)
    = (Ok hello_rows, msgs,
       cache_after changing_network neutral_scorer no_str_other
         [(60%Q, ("key", "other"))] hello_cache)
    /\ requests_made msgs = 0%nat
    /\ requests_made (cached 700 "key" "topic" hello_cache).1.2 = 1%nat
    /\ requests_made (cached 100 "key" "other" hello_cache).1.2 = 1%nat.
Proof.
  assert (Hstale : forall entry : cache_entry,
            (∅ : gmap (string * string) cache_entry) !! ("key", "topic")
            = Some entry -> (stored_at entry + ttl <= 0)%Q).
  { intros entry Hentry. rewrite lookup_empty in Hentry. discriminate Hentry. }
  destruct (cache_within_ttl changing_network neutral_scorer no_str_other
              0 100 "key" "topic" ∅ hello_cache hello_rows [HttpGet target]
              [(60%Q, ("key", "other"))] Hstale first_call)
    as (_ & Hhit & _ & Hother); [repeat constructor |].
  destruct (cache_within_ttl changing_network neutral_scorer no_str_other
              0 700 "key" "topic" ∅ hello_cache hello_rows [HttpGet target]
              [] Hstale first_call)
    as (_ & _ & Hlate & _); [constructor |].
  destruct Hhit as (msgs & Hsame & Hnone); [reflexivity |].
  exists msgs. split; [exact Hsame |]. split; [exact Hnone |].
  split; [apply Hlate; reflexivity |].
  apply Hother; [discriminate | apply lookup_empty].
Defined.

(** * Further properties *)

(** ** One request per run *)

(** X1. Whatever the network answers and whether the run returns or
    raises, its first event is the request to the address built from the
    query and the key, and at most one message follows: there is one
    request, never a second one. *)
Theorem one_request_first (requests_get : string -> res pyval)
    (polarity_of : string -> spec_float) (str_other : pyval -> string)
    (api_key query : string) :
  exists msgs,
    (fetch_and_analyze_news requests_get polarity_of str_other
       api_key query).2
    = HttpGet (request_url api_key query) :: msgs
    /\ Forall (fun ev => is_message ev = true) msgs
    /\ (length msgs <= 1)%nat.
Proof.
  unfold fetch_and_analyze_news.
  destruct (try_block requests_get (request_url api_key query)) as [v|e].
  - destruct (negb (truthy v)); eexists; (split; [reflexivity |]);
      split; repeat constructor.
  - destruct (exc_cls e); eexists; (split; [reflexivity |]);
      split; repeat constructor.
Qed.

(** ** Responses of another shape *)

(** X2. A decoded body that is not a JSON object (null, a number, a str, a
    list) makes [data.get] raise AttributeError inside the [try] block; the
    handler does not catch it, so it leaves the function and no message is
    shown. *)
Theorem body_not_object_raises (requests_get : string -> res pyval)
    (polarity_of : string -> spec_float) (str_other : pyval -> string)
    (api_key query : string) (body : pyval) :
  requests_get (request_url api_key query) = Ok body ->
  (forall m, body <> PDict m) ->
  fetch_and_analyze_news requests_get polarity_of str_other api_key query
  = (Raise (Exc AttributeError
              ("'" +:+ type_name body +:+ "' object has no attribute 'get'")),
     [HttpGet (request_url api_key query)]).
Proof.
  intros Hget Hnot. unfold fetch_and_analyze_news, try_block. rewrite Hget.
  destruct body as [| | | | | |m]; try reflexivity.
  destruct (Hnot m eq_refl).
Qed.

(** X3. When ["articles"] holds a value that is true but is not a list,
    the loop raises: AttributeError for a str or a dict, whose elements are
    strs without [get], TypeError for a number or [True], which cannot be
    iterated.  No message is shown. *)
Theorem articles_not_list_raises (requests_get : string -> res pyval)
    (polarity_of : string -> spec_float) (str_other : pyval -> string)
    (api_key query : string) (m : gmap string pyval) (v : pyval) :
  requests_get (request_url api_key query) = Ok (PDict m) ->
  m !! "articles" = Some v ->
  truthy v = true ->
  (forall l, v <> PList l) ->
  exists msg,
    fetch_and_analyze_news requests_get polarity_of str_other api_key query
    = (Raise (Exc (match v with
                   | PStr _ | PDict _ => AttributeError
                   | _ => TypeError
                   end) msg),
       [HttpGet (request_url api_key query)]).
Proof.
  intros Hget Hart Hv Hnot. unfold fetch_and_analyze_news, try_block.
  rewrite Hget. cbn [mbind res_bind py_get]. rewrite Hart.
  cbn [default from_option id]. rewrite Hv. cbn [negb].
  destruct v as [| | | |s|l|m']; cbn [py_iter mbind res_bind];
    try (eexists; reflexivity).
  - destruct s as [|c s]; [discriminate Hv |].
    cbn [list_ascii_of_string fmap list_fmap]. rewrite loop_on_str.
    eexists. reflexivity.
  - destruct (Hnot l eq_refl).
  - destruct (truthy_dict_keys _ Hv) as (k & ks & ->). rewrite loop_on_str.
    eexists. reflexivity.
Qed.

(** X4. Every value under ["articles"] that is false in Python's sense
    (null, [false], [0], [0.0], the empty str, list or dict) is treated
    like the empty list: no rows, and the warning. *)
Theorem falsy_articles_warning (requests_get : string -> res pyval)
    (polarity_of : string -> spec_float) (str_other : pyval -> string)
    (api_key query : string) (m : gmap string pyval) (v : pyval) :
  requests_get (request_url api_key query) = Ok (PDict m) ->
  m !! "articles" = Some v ->
  truthy v = false ->
  fetch_and_analyze_news requests_get polarity_of str_other api_key query
  = (Ok [], [HttpGet (request_url api_key query);
             Warning "No articles found for this query."]).
Proof.
  intros Hget Hart Hv. unfold fetch_and_analyze_news, try_block.
  rewrite Hget. cbn [mbind res_bind py_get]. rewrite Hart.
  cbn [default from_option id]. rewrite Hv. reflexivity.
Qed.

Lemma first_ill_formed (l : list pyval) (a : pyval) :
  a ∈ l -> well_formed a = false ->
  exists pre b post,
    l = (pre ++ b :: post)%list
    /\ Forall (fun a => well_formed a = true) pre
    /\ well_formed b = false.
Proof.
  intros Hin Ha. induction l as [|c l IH]; [inversion Hin |].
  destruct (well_formed c) eqn:Hc.
  - apply elem_of_cons in Hin as [-> | Hin]; [congruence |].
    destruct (IH Hin) as (pre & b & post & -> & Hpre & Hb).
    exists (c :: pre), b, post. split; [reflexivity |].
    split; [constructor; assumption | exact Hb].
  - exists [], c, l. split; [reflexivity |]. split; [constructor | exact Hc].
Qed.

(** X5. One article on which the loop body raises loses the whole result:
    when any element of the list is not a dict, or holds under ["source"]
    something that is not a dict, the run raises AttributeError and returns
    no row, wherever the element stands and even if it has no title and
    would have been skipped (the source is read before the title is
    tested). *)
Theorem ill_formed_article_discards_all (requests_get : string -> res pyval)
    (polarity_of : string -> spec_float) (str_other : pyval -> string)
    (api_key query : string) (m : gmap string pyval) (l : list pyval)
    (a : pyval) :
  requests_get (request_url api_key query) = Ok (PDict m) ->
  m !! "articles" = Some (PList l) ->
  a ∈ l ->
  well_formed a = false ->
  exists msg,
    fetch_and_analyze_news requests_get polarity_of str_other api_key query
    = (Raise (Exc AttributeError msg), [HttpGet (request_url api_key query)]).
Proof.
  intros Hget Hart Hin Ha.
  destruct (first_ill_formed l a Hin Ha) as (pre & b & post & -> & Hpre & Hb).
  destruct (analyze_ill_formed polarity_of str_other b Hb) as [msg Hmsg].
  exists msg. unfold fetch_and_analyze_news, try_block.
  rewrite Hget. cbn [mbind res_bind py_get]. rewrite Hart.
  cbn [default from_option id].
  assert (truthy (PList (pre ++ b :: post)) = true) as ->.
  { cbn [truthy]. rewrite length_app. cbn [length].
    destruct (length pre); reflexivity. }
  cbn [negb py_iter mbind res_bind].
  rewrite (loop_raises polarity_of str_other pre post b _ [] Hpre Hmsg).
  reflexivity.
Qed.

(** X6. A non-empty list of well-formed articles none of which has a title
    gives no rows and no message at all: the warning of line 28 is only for
    an empty list. *)
Theorem untitled_only_silent (requests_get : string -> res pyval)
    (polarity_of : string -> spec_float) (str_other : pyval -> string)
    (api_key query : string) (m : gmap string pyval) (l : list pyval) :
  requests_get (request_url api_key query) = Ok (PDict m) ->
  m !! "articles" = Some (PList l) ->
  l <> [] ->
  Forall (fun a => well_formed a = true) l ->
  Forall (fun a => has_title a = false) l ->
  fetch_and_analyze_news requests_get polarity_of str_other api_key query
  = (Ok [], [HttpGet (request_url api_key query)]).
Proof.
  intros Hget Hart Hne Hwf Hno.
  rewrite (run_on_articles _ _ _ _ _ _ _ Hget Hart Hwf).
  assert (filter has_title l = []) as ->.
  { clear -Hno. induction Hno as [|a l Ha _ IH]; [reflexivity |].
    rewrite filter_has_title_cons, Ha. exact IH. }
  destruct l; [contradiction | reflexivity].
Qed.

(** ** Labels and counts *)

Lemma sentiment_of_cases (p : spec_float) :
  sentiment_of p = "Positive" \/ sentiment_of p = "Negative"
  \/ sentiment_of p = "Neutral".
Proof.
  unfold sentiment_of. destruct (PyFloat.gt p _); [left; reflexivity |].
  destruct (PyFloat.lt p _); right; [left | right]; reflexivity.
Qed.

Lemma count_label_cons (label : string) (r : analyzed) (rows : list analyzed) :
  count_label label (r :: rows)
  = ((if decide (sentiment_label r = label) then 1 else 0)
     + count_label label rows)%nat.
Proof.
  unfold count_label. rewrite filter_cons.
  destruct (decide (sentiment_label r = label)); reflexivity.
Qed.

Lemma counts_add_up (rows : list analyzed) :
  Forall (fun r => sentiment_label r = "Positive"
                   \/ sentiment_label r = "Negative"
                   \/ sentiment_label r = "Neutral") rows ->
  (count_label "Positive" rows + count_label "Negative" rows
   + count_label "Neutral" rows = length rows)%nat.
Proof.
  induction 1 as [|r rows Hr _ IH]; [reflexivity |].
  rewrite !count_label_cons. cbn [length].
  destruct Hr as [Hr | [Hr | Hr]]; rewrite Hr;
    repeat case_decide; try congruence; lia.
Qed.

(** X7. In every ResultSet the run returns, each row carries one of the
    three labels "Positive", "Negative", "Neutral", so the three counts the
    page takes from [value_counts] add up to the number of rows, and the
    two metrics shown never exceed the total. *)
Theorem labels_partition_rows (requests_get : string -> res pyval)
    (polarity_of : string -> spec_float) (str_other : pyval -> string)
    (api_key query : string) (rows : list analyzed) (evs : list event) :
  fetch_and_analyze_news requests_get polarity_of str_other api_key query
  = (Ok rows, evs) ->
  Forall (fun r => sentiment_label r ∈ ["Positive"; "Negative"; "Neutral"])
    rows
  /\ (count_label "Positive" rows + count_label "Negative" rows
      + count_label "Neutral" rows = length rows)%nat
  /\ (count_label "Positive" rows + count_label "Negative" rows
      <= length rows)%nat.
Proof.
  intros Hrun. apply run_returned in Hrun.
  assert (Hlabels : Forall (fun r => sentiment_label r = "Positive"
                                     \/ sentiment_label r = "Negative"
                                     \/ sentiment_label r = "Neutral") rows).
  { subst rows. apply Forall_fmap, Forall_forall. intros a _.
    apply sentiment_of_cases. }
  pose proof (counts_add_up rows Hlabels) as Hsum.
  split; [| split; [exact Hsum | lia]].
  eapply Forall_impl; [exact Hlabels |]. intros r [-> | [-> | ->]].
  - apply list_elem_of_here.
  - apply list_elem_of_further, list_elem_of_here.
  - do 2 apply list_elem_of_further. apply list_elem_of_here.
Qed.

(** ** Sign of the stored score *)

Lemma shr_1_nonneg (mrs : shr_record) :
  0 <= shr_m mrs -> 0 <= shr_m (shr_1 mrs).
Proof.
  destruct mrs as [m r s]. cbn [shr_m].
  destruct m as [|[p|p|]|p]; cbn; lia.
Qed.

Lemma iter_shr_1_nonneg (p : positive) (mrs : shr_record) :
  0 <= shr_m mrs -> 0 <= shr_m (SpecFloat.iter_pos shr_1 p mrs).
Proof.
  revert mrs. induction p as [p IH|p IH|]; intros mrs H; cbn [SpecFloat.iter_pos].
  - apply IH, IH, shr_1_nonneg, H.
  - apply IH, IH, H.
  - apply shr_1_nonneg, H.
Qed.

Lemma shr_fexp_nonneg (m e : Z) (l : location) :
  0 <= m -> 0 <= shr_m (shr_fexp PyFloat.prec PyFloat.emax m e l).1.
Proof.
  intros Hm. unfold shr_fexp, shr.
  assert (Hrec : 0 <= shr_m (shr_record_of_loc m l))
    by (destruct l as [|[| |]]; exact Hm).
  destruct (_ - e) as [|p|p]; cbn [fst]; [exact Hrec | | exact Hrec].
  apply iter_shr_1_nonneg, Hrec.
Qed.

Lemma round_nearest_even_nonneg (m : Z) (l : location) :
  0 <= m -> 0 <= round_nearest_even m l.
Proof.
  intros Hm. unfold round_nearest_even.
  destruct l as [|[| |]]; try destruct (Z.even m); lia.
Qed.

(** Rounding a non-negative mantissa to binary64 gives a zero, a finite
    value or an infinity of the sign asked for, never NaN. *)
Lemma binary_round_aux_sign (sx : bool) (mx ex : Z) (lx : location) :
  0 <= mx ->
  sign_bit (binary_round_aux PyFloat.prec PyFloat.emax sx mx ex lx) = Some sx.
Proof.
  intros Hm. unfold binary_round_aux.
  pose proof (shr_fexp_nonneg mx ex lx Hm) as H1.
  destruct (shr_fexp PyFloat.prec PyFloat.emax mx ex lx) as [mrs' e'].
  cbn [fst] in H1.
  pose proof (shr_fexp_nonneg _ e' loc_Exact
                (round_nearest_even_nonneg _ (loc_of_shr_record mrs') H1))
    as H2.
  destruct (shr_fexp PyFloat.prec PyFloat.emax _ e' loc_Exact) as [mrs'' e''].
  cbn [fst] in H2.
  destruct (shr_m mrs'') as [|p|p]; [reflexivity | | lia].
  destruct (Z.leb e'' _); reflexivity.
Qed.

Lemma SFdiv_pos_sign (s : bool) (k d : positive) :
  sign_bit (SFdiv PyFloat.prec PyFloat.emax
              (S754_finite s k 0) (S754_finite false d 0)) = Some s.
Proof.
  unfold SFdiv, SFdiv_core_binary.
  set (e' := Z.min _ _). set (m' := match 0 - 0 - e' with
                                    | 0 => Z.pos k
                                    | Z.pos _ => Z.shiftl (Z.pos k) (0 - 0 - e')
                                    | Z.neg _ => 0
                                    end).
  assert (Hm' : 0 <= m').
  { unfold m'. destruct (0 - 0 - e'); [lia | | lia].
    apply Z.shiftl_nonneg. lia. }
  pose proof (Z_div_mod m' (Z.pos d) ltac:(lia)) as Hdiv.
  destruct (Z.div_eucl m' (Z.pos d)) as [q r].
  rewrite binary_round_aux_sign; [destruct s; reflexivity |].
  destruct Hdiv as [Heq Hr]. nia.
Qed.

(** X8. Rounding to 3 decimals keeps the sign of the polarity and does not
    make or remove a NaN.  So the stored score of a row labelled "Positive"
    is never negative and never NaN, and the stored score of a row labelled
    "Negative" always has the minus sign. *)
Theorem score_sign_agrees_with_label (p : spec_float) :
  sign_bit (PyFloat.round3 p) = sign_bit p
  /\ (sentiment_of p = "Positive" -> sign_bit (PyFloat.round3 p) = Some false)
  /\ (sentiment_of p = "Negative" -> sign_bit (PyFloat.round3 p) = Some true).
Proof.
  assert (Hsign : sign_bit (PyFloat.round3 p) = sign_bit p).
  { destruct p as [s|s| |s m e]; try reflexivity. unfold PyFloat.round3.
    destruct (PyFloat.thousandths m e) as [|k|k]; try reflexivity.
    apply SFdiv_pos_sign. }
  split; [exact Hsign |]. rewrite Hsign. unfold sentiment_of.
  split.
  - destruct (PyFloat.gt p PyFloat.lit_0_1) eqn:Hgt.
    + intros _. revert Hgt.
      unfold PyFloat.gt, PyFloat.lit_0_1, SFltb, SFcompare.
      destruct p as [s|[|]| |[|] m e]; intros H;
        try reflexivity; discriminate H.
    + destruct (PyFloat.lt p _); discriminate.
  - destruct (PyFloat.gt p PyFloat.lit_0_1); [discriminate |].
    destruct (PyFloat.lt p (SFopp PyFloat.lit_0_1)) eqn:Hlt; [| discriminate].
    intros _. revert Hlt.
    unfold PyFloat.lt, PyFloat.lit_0_1, SFltb, SFopp, SFcompare.
    destruct p as [s|[|]| |[|] m e]; intros H;
      try reflexivity; discriminate H.
Qed.

(** ** The decimal kept by the rounding *)

Lemma div_half_even_nearest (n d : Z) :
  0 < d ->
  let k := PyFloat.div_half_even n d in
  2 * Z.abs (n - d * k) <= d
  /\ (2 * Z.abs (n - d * k) = d -> Z.even k = true).
Proof.
  intros Hd k. subst k. unfold PyFloat.div_half_even.
  pose proof (Z.div_mod n d ltac:(lia)) as Hn.
  pose proof (Z.mod_pos_bound n d Hd) as Hr.
  destruct (Z.compare (2 * (n mod d)) d) eqn:Hcmp.
  - apply Z.compare_eq in Hcmp.
    destruct (Z.even (n / d)) eqn:Hev; [split; [lia | intros _; exact Hev] |].
    split; [lia |]. intros _.
    replace (n / d + 1) with (Z.succ (n / d)) by lia.
    rewrite Z.even_succ, <- Z.negb_even, Hev. reflexivity.
  - rewrite Z.compare_lt_iff in Hcmp. split; lia.
  - rewrite Z.compare_gt_iff in Hcmp. split; lia.
Qed.

Lemma div_half_even_nonneg (n d : Z) :
  0 <= n -> 0 < d -> 0 <= PyFloat.div_half_even n d.
Proof.
  intros Hn Hd. unfold PyFloat.div_half_even. cbv zeta.
  pose proof (Z.div_pos n d Hn Hd) as Hq.
  destruct (Z.compare (2 * (n mod d)) d); [| exact Hq | lia].
  destruct (Z.even (n / d)); lia.
Qed.

(** X9. The thousandths kept when a finite polarity [m * 2^e] is rounded to
    3 decimals are a nearest integer to [m * 2^e * 1000]: exact when [e] is
    not negative, and otherwise at most one half away, the even neighbour
    being taken on an exact tie. *)
Theorem thousandths_nearest (m : positive) (e : Z) :
  let k := PyFloat.thousandths m e in
  0 <= k
  /\ (0 <= e -> k = Z.pos m * 1000 * 2 ^ e)
  /\ (e < 0 ->
      2 * Z.abs (Z.pos m * 1000 - 2 ^ (- e) * k) <= 2 ^ (- e)
      /\ (2 * Z.abs (Z.pos m * 1000 - 2 ^ (- e) * k) = 2 ^ (- e) ->
          Z.even k = true)).
Proof.
  intros k. subst k. destruct e as [|p|p]; cbn [PyFloat.thousandths].
  - split; [lia |]. split; [reflexivity | lia].
  - pose proof (Z.pow_pos_nonneg 2 (Z.pos p) ltac:(lia) ltac:(lia)).
    split; [nia |]. split; [reflexivity | lia].
  - pose proof (Z.pow_pos_nonneg 2 (Z.pos p) ltac:(lia) ltac:(lia)) as Hpow.
    pose proof (div_half_even_nearest (Z.pos m * 1000) (2 ^ Z.pos p) Hpow)
      as [Hnear Htie].
    split; [| split; [lia |]].
    + apply div_half_even_nonneg; lia.
    + intros _. change (- Z.neg p) with (Z.pos p). split; assumption.
Qed.

(** ** The text is stripped *)

Lemma lstrip_head (s : string) (c : ascii) (s' : string) :
  lstrip s = String c s' -> py_isspace c = false.
Proof.
  induction s as [|a s IH]; [discriminate |]. cbn [lstrip].
  destruct (py_isspace a) eqn:Ha; [exact IH |].
  intros [= <- _]. exact Ha.
Qed.

Lemma rstrip_head (c : ascii) (s : string) :
  py_isspace c = false -> exists s', rstrip (String c s) = String c s'.
Proof.
  intros Hc. cbn [rstrip]. rewrite Hc.
  destruct (rstrip s); eexists; reflexivity.
Qed.

Lemma rstrip_last (s u : string) (c : ascii) :
  rstrip s = u +:+ String c "" -> py_isspace c = false.
Proof.
  revert u. induction s as [|a s IH]; intros u.
  - destruct u; discriminate.
  - cbn [rstrip]. destruct (rstrip s) as [|b r] eqn:Hr.
    + destruct (py_isspace a) eqn:Ha; [destruct u; discriminate |].
      destruct u as [|a' u]; [intros [= <-]; exact Ha |].
      rewrite append_cons. intros [= _ Hu]. destruct u; discriminate Hu.
    + destruct u as [|a' u]; [discriminate |].
      rewrite append_cons. intros [= _ Hu]. exact (IH u Hu).
Qed.

Lemma rstrip_idem (s : string) : rstrip (rstrip s) = rstrip s.
Proof.
  induction s as [|a s IH]; [reflexivity |]. cbn [rstrip].
  destruct (rstrip s) as [|b r] eqn:Hr.
  - destruct (py_isspace a) eqn:Ha; [reflexivity |].
    cbn [rstrip]. rewrite Ha. reflexivity.
  - cbn [rstrip] in *. rewrite IH. reflexivity.
Qed.

Lemma strip_idem (s : string) : strip (strip s) = strip s.
Proof.
  unfold strip. destruct (lstrip s) as [|c t] eqn:Hl; [reflexivity |].
  pose proof (lstrip_head _ _ _ Hl) as Hc.
  destruct (rstrip_head c t Hc) as [t' Ht]. rewrite Ht.
  cbn [lstrip]. rewrite Hc, <- Ht. apply rstrip_idem.
Qed.

(** X10. The text given to the scorer never begins or ends with a
    whitespace character, whatever the title and the description hold, and
    stripping it again changes nothing. *)
Theorem text_has_no_outer_whitespace (str_other : pyval -> string)
    (title description : pyval) :
  let text := build_text str_other title description in
  (forall c s, text = String c s -> py_isspace c = false)
  /\ (forall s c, text = s +:+ String c "" -> py_isspace c = false)
  /\ strip text = text.
Proof.
  intros text. subst text. unfold build_text.
  set (raw := py_str str_other title +:+ " " +:+ py_str str_other description).
  split; [| split].
  - intros c s Hs. unfold strip in Hs.
    destruct (lstrip raw) as [|a t] eqn:Hl; [discriminate Hs |].
    pose proof (lstrip_head _ _ _ Hl) as Ha.
    destruct (rstrip_head a t Ha) as [t' Ht]. rewrite Ht in Hs.
    injection Hs as <- _. exact Ha.
  - intros s c Hs. exact (rstrip_last _ _ _ Hs).
  - apply strip_idem.
Qed.

(** ** The request address *)

Lemma append_cancel_l (s a b : string) : s +:+ a = s +:+ b -> a = b.
Proof.
  induction s as [|c s IH]; [exact id |].
  rewrite !append_cons. intros [= H]. exact (IH H).
Qed.

Lemma append_cancel_r (a b s : string) : a +:+ s = b +:+ s -> a = b.
Proof.
  revert b. induction a as [|c a IH]; intros b H.
  - destruct b as [|d b]; [reflexivity |]. exfalso.
    apply (f_equal String.length) in H.
    rewrite !length_append in H. cbn [String.length] in H. lia.
  - destruct b as [|d b].
    + exfalso. apply (f_equal String.length) in H.
      rewrite !length_append in H. cbn [String.length] in H. lia.
    + rewrite !append_cons in H. injection H as -> H.
      rewrite (IH b H). reflexivity.
Qed.

(** X11. With one key, two queries that differ give two request addresses
    that differ, and with one query so do two keys.  But the query and the
    key are put into the address as they are, without escaping, so two
    different pairs of key and query can give the same address. *)
Theorem request_url_injective (api_key query : string) :
  (forall query', request_url api_key query = request_url api_key query' ->
                  query = query')
  /\ (forall api_key', request_url api_key query = request_url api_key' query ->
                       api_key = api_key')
  /\ request_url "c" "a&lang=en&token=b" = request_url "b&lang=en&token=c" "a".
Proof.
  unfold request_url. split; [| split; [| reflexivity]].
  - intros query' H. apply append_cancel_l in H.
    exact (append_cancel_r _ _ _ H).
  - intros api_key' H. do 3 apply append_cancel_l in H. exact H.
Qed.

(** ** What the cache keeps *)

Section CacheMore.

Variable network : Q -> string -> res pyval.
Variable polarity_of : string -> spec_float.
Variable str_other : pyval -> string.

Local Abbreviation call := (cached_fetch network polarity_of str_other).
Local Abbreviation after := (cache_after network polarity_of str_other).

(** X12. A failed request is remembered like a result.  When the body runs
    and the request raises a RequestException, the empty ResultSet is
    stored with the error message: a call with the same arguments less than
    600 seconds later makes no request, returns the empty ResultSet and
    shows the same error again, even if the network has recovered. *)
Theorem failure_is_cached (t0 t1 : Q) (api_key query msg : string)
    (cache : gmap (string * string) cache_entry) :
  (forall entry, cache !! (api_key, query) = Some entry ->
                 (stored_at entry + ttl <= t0)%Q) ->
  network t0 (request_url api_key query) = Raise (Exc RequestException msg) ->
  (t1 < t0 + ttl)%Q ->
  let first := call t0 api_key query cache in
  first.1 = (Ok [], [HttpGet (request_url api_key query);
                     Error ("Error fetching news: " +:+ msg)])
  /\ call t1 api_key query first.2
     = (Ok [], [Error ("Error fetching news: " +:+ msg)], first.2).
Proof.
  intros Hstale Hnet Hfresh first. subst first.
  rewrite (call_miss _ _ _ _ _ _ _ Hstale).
  unfold fetch_and_analyze_news, try_block. rewrite Hnet.
  cbn [mbind res_bind exc_cls exc_str fst snd]. split; [reflexivity |].
  set (entry := CacheEntry t0 [] _).
  apply (call_hit network polarity_of str_other t1 api_key query _ entry);
    [apply lookup_insert_eq | exact Hfresh].
Qed.

(** X13. A run that raises stores nothing: the cache is left as it was, and
    the next call with the same arguments, however soon, runs the body
    again with a new request. *)
Theorem raise_not_cached (t0 t1 : Q) (api_key query : string)
    (cache cache1 : gmap (string * string) cache_entry)
    (e : exc) (evs : list event) :
  (forall entry, cache !! (api_key, query) = Some entry ->
                 (stored_at entry + ttl <= t0)%Q) ->
  call t0 api_key query cache = (Raise e, evs, cache1) ->
  (t0 <= t1)%Q ->
  cache1 = cache
  /\ requests_made (call t1 api_key query cache1).1.2 = 1%nat.
Proof.
  intros Hstale Hcall Hlater.
  rewrite (call_miss _ _ _ _ _ _ _ Hstale) in Hcall.
  destruct (fetch_and_analyze_news _ _ _ _ _) as [[rows|e0] evs0];
    [discriminate Hcall |].
  injection Hcall as _ _ <-. split; [reflexivity |].
  apply call_miss_requests_once. intros entry Hentry.
  apply Qle_trans with t0; [exact (Hstale entry Hentry) | exact Hlater].
Qed.

Lemma call_keeps_clean (now : Q) (api_key query : string)
    (cache : gmap (string * string) cache_entry) :
  cache_clean cache -> cache_clean (call now api_key query cache).2.
Proof.
  intros Hclean. unfold cached_fetch.
  assert (Hrun : cache_clean
    (match fetch_and_analyze_news (network now) polarity_of str_other
             api_key query with
     | (Ok rows, evs) =>
         (Ok rows, evs,
          <[(api_key, query) := CacheEntry now rows (filter is_message evs)]>
            cache)
     | (Raise e, evs) => (Raise e, evs, cache)
     end).2).
  { destruct (fetch_and_analyze_news _ _ _ _ _) as [[rows|e] evs];
      cbn [snd]; [| exact Hclean].
    intros key entry Hentry.
    destruct (decide (key = (api_key, query))) as [-> | Hne].
    - rewrite lookup_insert_eq in Hentry. injection Hentry as <-.
      apply messages_no_request.
    - rewrite lookup_insert_ne in Hentry by congruence.
      exact (Hclean key entry Hentry). }
  destruct (cache !! (api_key, query)) as [entry|]; [| exact Hrun].
  destruct (Qlt_le_dec now (stored_at entry + ttl)); [exact Hclean | exact Hrun].
Qed.

Lemma after_keeps_clean (calls : list (Q * (string * string)))
    (cache : gmap (string * string) cache_entry) :
  cache_clean cache -> cache_clean (after calls cache).
Proof.
  revert cache. induction calls as [|[now [k q]] calls IH]; intros cache H;
    [exact H |].
  cbn [cache_after]. apply IH, call_keeps_clean, H.
Qed.

Lemma empty_clean : cache_clean ∅.
Proof. intros key entry H. rewrite lookup_empty in H. discriminate H. Qed.

Lemma fresh_or_stale (cache : gmap (string * string) cache_entry)
    (key : string * string) (now : Q) :
  fresh_entry cache key now
  \/ (forall entry, cache !! key = Some entry ->
                    (stored_at entry + ttl <= now)%Q).
Proof.
  destruct (cache !! key) as [entry|] eqn:Hentry.
  - destruct (Qlt_le_dec now (stored_at entry + ttl)) as [Hlt|Hle].
    + left. exists entry. split; [exact Hentry | exact Hlt].
    + right. intros en Hen. injection Hen as <-. exact Hle.
  - right. intros en Hen. discriminate Hen.
Qed.

Lemma call_requests_from_clean (now : Q) (api_key query : string)
    (cache : gmap (string * string) cache_entry) :
  cache_clean cache ->
  let made := requests_made (call now api_key query cache).1.2 in
  (made <= 1)%nat
  /\ (made = 0%nat <-> fresh_entry cache (api_key, query) now).
Proof.
  intros Hclean made. subst made.
  destruct (fresh_or_stale cache (api_key, query) now)
    as [Hfresh | Hstale].
  - destruct Hfresh as (entry & Hentry & Hlt).
    rewrite (call_hit _ _ _ _ _ _ _ entry Hentry Hlt). cbn [fst snd].
    rewrite (Hclean _ _ Hentry). split; [lia |].
    split; [intros _; exists entry; split; assumption | reflexivity].
  - rewrite (call_miss_requests_once _ _ _ _ _ _ _ Hstale).
    split; [lia |]. split; [discriminate |].
    intros (entry & Hentry & Hlt). exfalso.
    exact (Qlt_not_le _ _ Hlt (Hstale entry Hentry)).
Qed.

(** X14. Starting from the empty cache, after any sequence of calls, a
    call makes at most one request, and it makes none exactly when the
    cache holds an entry for its arguments stored less than 600 seconds
    before. *)
Theorem at_most_one_request (calls : list (Q * (string * string)))
    (now : Q) (api_key query : string) :
  let cache := after calls ∅ in
  let made := requests_made (call now api_key query cache).1.2 in
  (made <= 1)%nat
  /\ (made = 0%nat <-> fresh_entry cache (api_key, query) now).
Proof.
  intros cache. apply call_requests_from_clean.
  apply after_keeps_clean, empty_clean.
Qed.

End CacheMore.

(** ** The page *)

Lemma filter_bool_cons {A : Type} (f : A -> bool) (a : A) (l : list A) :
  filter f (a :: l) = if f a then a :: filter f l else filter f l.
Proof.
  destruct (f a) eqn:H.
  - apply filter_cons_True. rewrite H. exact I.
  - apply filter_cons_False. rewrite H. exact id.
Qed.

Lemma sentiment_positive_gt (p : spec_float) :
  sentiment_of p = "Positive" <-> PyFloat.gt p PyFloat.lit_0_1 = true.
Proof.
  unfold sentiment_of. destruct (PyFloat.gt p _); [split; reflexivity |].
  destruct (PyFloat.lt p _); split; discriminate.
Qed.

Lemma sentiment_negative_lt (p : spec_float) :
  sentiment_of p = "Negative"
  <-> PyFloat.lt p (SFopp PyFloat.lit_0_1) = true.
Proof.
  pose proof (lt_neg_not_gt p) as Hsign. unfold sentiment_of.
  destruct (PyFloat.gt p PyFloat.lit_0_1);
    destruct (PyFloat.lt p (SFopp PyFloat.lit_0_1));
    try (specialize (Hsign eq_refl); discriminate Hsign);
    split; try reflexivity; discriminate.
Qed.

Section PageFacts.

Variable network : Q -> string -> res pyval.
Variable polarity_of : string -> spec_float.
Variable str_other : pyval -> string.

Local Abbreviation call := (cached_fetch network polarity_of str_other).
Local Abbreviation after := (cache_after network polarity_of str_other).
Local Abbreviation row := (row_of polarity_of str_other).
Local Abbreviation run_page := (page network polarity_of str_other).
Local Abbreviation polarity a := (polarity_of (text_of str_other a)).

Local Abbreviation could_not :=
  (Event (Error "Could not retrieve or analyze news. Check your API key or query.")).
Local Abbreviation idle :=
  [Info " Enter your GNews API key and a topic, then click 'Fetch and Analyze News' to begin."].

(** The rows with a label are the articles with a title whose polarity
    passes the test of the label. *)
Lemma count_label_rows (label : string) (test : spec_float -> bool)
    (l : list pyval) :
  (forall p, sentiment_of p = label <-> test p = true) ->
  count_label label (row <$> filter has_title l)
  = length (filter (fun a => has_title a && test (polarity a)) l).
Proof.
  intros Htest. induction l as [|a l IH]; [reflexivity |].
  rewrite filter_has_title_cons, filter_bool_cons.
  destruct (has_title a); cbn [andb]; [| exact IH].
  rewrite fmap_cons, count_label_cons, IH.
  change (sentiment_label (row a)) with (sentiment_of (polarity a)).
  destruct (test (polarity a)) eqn:Ht.
  - apply Htest in Ht. rewrite decide_True by exact Ht. reflexivity.
  - rewrite decide_False; [reflexivity |].
    intros Hl. apply Htest in Hl. congruence.
Qed.

Lemma page_requests_events (evs : list event) :
  page_requests (Event <$> evs) = requests_made evs.
Proof.
  unfold page_requests, requests_made.
  induction evs as [|ev evs IH]; [reflexivity |].
  rewrite fmap_cons, !filter_cons.
  destruct ev; cbn [is_message]; repeat case_decide;
    try discriminate; cbn [length]; congruence.
Qed.

Lemma page_requests_show_rows (query : string) (rows : list analyzed) :
  page_requests (show_rows query rows) = 0%nat.
Proof. destruct rows; reflexivity. Qed.

Lemma page_requests_app (out1 out2 : list shown) :
  page_requests (out1 ++ out2) = (page_requests out1 + page_requests out2)%nat.
Proof. unfold page_requests. rewrite filter_app, length_app. reflexivity. Qed.

(** A click with a key when no valid entry is stored: the body runs. *)
Lemma page_miss (now : Q) (secret typed query : string)
    (cache : gmap (string * string) cache_entry) :
  let key := api_key_secret secret typed in
  key <> "" ->
  (forall entry, cache !! (key, query) = Some entry ->
                 (stored_at entry + ttl <= now)%Q) ->
  run_page now secret typed query true cache
  = match fetch_and_analyze_news (network now) polarity_of str_other
            key query with
    | (Ok rows, evs) =>
        (None, ((Event <$> evs) ++ show_rows query rows)%list,
         <[(key, query) := CacheEntry now rows (filter is_message evs)]> cache)
    | (Raise e, evs) => (Some e, Event <$> evs, cache)
    end.
Proof.
  intros key Hkey Hstale. unfold page. fold key.
  assert (String.eqb key "" = false) as ->
    by (apply String.eqb_neq; exact Hkey).
  cbn [andb negb]. rewrite (call_miss _ _ _ _ _ _ _ Hstale).
  destruct (fetch_and_analyze_news _ _ _ _ _) as [[rows|e] evs]; reflexivity.
Qed.

(** The script once line 72 has returned [secret]: from a cache reached
    from the empty one it makes at most one request; without a click, or
    when the secret is empty and nothing is typed, it shows the invitation
    only and leaves the cache as it is; a secret that is not empty is used
    whatever is typed. *)
Lemma page_after_secret (calls : list (Q * (string * string)))
    (now : Q) (secret typed query : string) (refresh_button : bool) :
  let cache := after calls ∅ in
  (page_requests
     (run_page now secret typed query refresh_button cache).1.2 <= 1)%nat
  /\ (refresh_button = false \/ api_key_secret secret typed = "" ->
      run_page now secret typed query refresh_button cache
      = (None, idle, cache))
  /\ (secret <> "" ->
      run_page now secret typed query refresh_button cache
      = run_page now secret "" query refresh_button cache).
Proof.
  intros cache. split; [| split].
  - unfold page.
    destruct (refresh_button && negb (String.eqb _ ""));
      [| cbn [fst snd];
         assert (page_requests idle = 0%nat) as -> by reflexivity; lia].
    pose proof (call_requests_from_clean network polarity_of str_other now
                  (api_key_secret secret typed) query cache
                  (after_keeps_clean _ _ _ calls ∅ empty_clean)) as [Hle _].
    destruct (call now _ query cache) as [[[rows|e] evs] cache'];
      cbn [fst snd] in *.
    + rewrite page_requests_app, page_requests_events,
        page_requests_show_rows. lia.
    + rewrite page_requests_events. exact Hle.
  - unfold page. intros [-> | ->]; [reflexivity |].
    rewrite andb_false_r. reflexivity.
  - intros Hsecret. unfold page, api_key_secret.
    apply String.eqb_neq in Hsecret. rewrite Hsecret. reflexivity.
Qed.

(** X16. A click with a key, when no valid entry is stored and the
    response holds well-formed articles of which at least one has a title:
    the page shows the request, the success message with the number of
    articles that have a title, that number as total, the number of them
    whose polarity is above [0.1] as positive and the number of them whose
    polarity is below [-0.1] as negative; the rows are stored. *)
Theorem page_shows_counts (now : Q) (secret typed query : string)
    (cache : gmap (string * string) cache_entry)
    (m : gmap string pyval) (l : list pyval) :
  let key := api_key_secret secret typed in
  let titled := filter has_title l in
  key <> "" ->
  (forall entry, cache !! (key, query) = Some entry ->
                 (stored_at entry + ttl <= now)%Q) ->
  network now (request_url key query) = Ok (PDict m) ->
  m !! "articles" = Some (PList l) ->
  Forall (fun a => well_formed a = true) l ->
  titled <> [] ->
  run_page now secret typed query true cache
  = (None,
     [Event (HttpGet (request_url key query));
      Success (" Successfully analyzed " +:+ nat_str (length titled)
               +:+ " articles for '" +:+ query +:+ "'!");
      Metric TotalArticles (length titled);
      Metric PositiveArticles
        (length (filter (fun a => has_title a
                           && PyFloat.gt (polarity a) PyFloat.lit_0_1) l));
      Metric NegativeArticles
        (length (filter (fun a => has_title a
                           && PyFloat.lt (polarity a) (SFopp PyFloat.lit_0_1))
                   l))],
     <[(key, query) := CacheEntry now (row <$> titled) []]> cache).
Proof.
  intros key titled Hkey Hstale Hnet Hart Hwf Htitled.
  rewrite (page_miss now secret typed query cache Hkey Hstale). fold key.
  rewrite (run_on_articles _ _ _ _ _ _ _ Hnet Hart Hwf). fold titled.
  assert (Hl : l <> []) by (intros ->; apply Htitled; reflexivity).
  destruct l as [|a0 l0]; [contradiction |]. cbn [app fmap list_fmap].
  rewrite <- (count_label_rows "Positive"
                (fun p => PyFloat.gt p PyFloat.lit_0_1) (a0 :: l0)
                sentiment_positive_gt).
  rewrite <- (count_label_rows "Negative"
                (fun p => PyFloat.lt p (SFopp PyFloat.lit_0_1)) (a0 :: l0)
                sentiment_negative_lt).
  fold titled. unfold show_rows.
  destruct titled as [|a1 t1] eqn:Ht; [contradiction |].
  rewrite <- Ht. rewrite !length_fmap.
  destruct (row <$> titled) as [|r rs] eqn:Hrows;
    [rewrite Ht in Hrows; discriminate Hrows |].
  reflexivity.
Qed.

End PageFacts.

Section PageOutcomes.

Variable network : Q -> string -> res pyval.
Variable polarity_of : string -> spec_float.
Variable str_other : pyval -> string.

Local Abbreviation run_page := (page network polarity_of str_other).

Local Abbreviation could_not :=
  (Event (Error "Could not retrieve or analyze news. Check your API key or query.")).

(** X17. A click with a key, when no valid entry is stored and the call
    returns no rows, always ends with the error "Could not retrieve or
    analyze news": after the warning when the response has no articles,
    after the error of the request when that failed, and alone after the
    request when no article has a title. *)
Theorem page_empty_outcomes (now : Q) (secret typed query : string)
    (cache : gmap (string * string) cache_entry) :
  let key := api_key_secret secret typed in
  let target := request_url key query in
  key <> "" ->
  (forall entry, cache !! (key, query) = Some entry ->
                 (stored_at entry + ttl <= now)%Q) ->
  (forall m,
     network now target = Ok (PDict m) ->
     (m !! "articles" = None
      \/ exists v, m !! "articles" = Some v /\ truthy v = false) ->
     (run_page now secret typed query true cache).1
     = (None, [Event (HttpGet target);
               Event (Warning "No articles found for this query.");
               could_not]))
  /\ (forall msg,
        network now target = Raise (Exc RequestException msg) ->
        (run_page now secret typed query true cache).1
        = (None, [Event (HttpGet target);
                  Event (Error ("Error fetching news: " +:+ msg));
                  could_not]))
  /\ (forall m l,
        network now target = Ok (PDict m) ->
        m !! "articles" = Some (PList l) ->
        l <> [] ->
        Forall (fun a => well_formed a = true) l ->
        Forall (fun a => has_title a = false) l ->
        (run_page now secret typed query true cache).1
        = (None, [Event (HttpGet target); could_not])).
Proof.
  intros key target Hkey Hstale.
  rewrite (page_miss network polarity_of str_other now secret typed query
             cache Hkey Hstale).
  fold key. split; [| split].
  - intros m Hnet Hart. unfold fetch_and_analyze_news, try_block.
    fold target. rewrite Hnet. cbn [mbind res_bind py_get].
    destruct Hart as [-> | (v & -> & Hv)]; cbn [default from_option id];
      [| rewrite Hv]; reflexivity.
  - intros msg Hnet. unfold fetch_and_analyze_news, try_block.
    fold target. rewrite Hnet. reflexivity.
  - intros m l Hnet Hart Hne Hwf Hno.
    rewrite (run_on_articles _ _ _ _ _ _ _ Hnet Hart Hwf).
    assert (filter has_title l = []) as ->.
    { clear -Hno. induction Hno as [|a l Ha _ IH]; [reflexivity |].
      rewrite filter_has_title_cons, Ha. exact IH. }
    destruct l; [contradiction | reflexivity].
Qed.

(** X18. After a click that ran the body and showed its result, a second
    click with the same key and query less than 600 seconds later shows the
    same messages and the same metrics without any request, and leaves the
    cache as it is, whatever the network would answer now. *)
Theorem page_repeat_click (t0 t1 : Q) (secret typed query : string)
    (cache cache1 : gmap (string * string) cache_entry) (out : list shown) :
  let key := api_key_secret secret typed in
  key <> "" ->
  (forall entry, cache !! (key, query) = Some entry ->
                 (stored_at entry + ttl <= t0)%Q) ->
  run_page t0 secret typed query true cache = (None, out, cache1) ->
  (t1 < t0 + ttl)%Q ->
  exists rows evs,
    out = ((Event <$> evs) ++ show_rows query rows)%list
    /\ run_page t1 secret typed query true cache1
       = (None,
          ((Event <$> filter is_message evs) ++ show_rows query rows)%list,
          cache1)
    /\ page_requests
         ((Event <$> filter is_message evs) ++ show_rows query rows) = 0%nat.
Proof.
  intros key Hkey Hstale Hfirst Hfresh.
  rewrite (page_miss network polarity_of str_other t0 secret typed query
             cache Hkey Hstale) in Hfirst.
  fold key in Hfirst.
  destruct (fetch_and_analyze_news _ _ _ _ _) as [[rows|e] evs];
    [| discriminate Hfirst].
  injection Hfirst as <- <-. exists rows, evs. split; [reflexivity |].
  split.
  - unfold page. fold key.
    assert (String.eqb key "" = false) as ->
      by (apply String.eqb_neq; exact Hkey).
    cbn [andb negb].
    rewrite (call_hit network polarity_of str_other t1 key query _
               (CacheEntry t0 rows (filter is_message evs)));
      [reflexivity | apply lookup_insert_eq | exact Hfresh].
  - rewrite page_requests_app, page_requests_events, page_requests_show_rows,
      messages_no_request. reflexivity.
Qed.

End PageOutcomes.

Section ScriptFacts.

Variable network : Q -> string -> res pyval.
Variable polarity_of : string -> spec_float.
Variable str_other : pyval -> string.

Local Abbreviation after := (cache_after network polarity_of str_other).
Local Abbreviation run_script := (script network polarity_of str_other).

Local Abbreviation idle :=
  [Info " Enter your GNews API key and a topic, then click 'Fetch and Analyze News' to begin."].

(** X15. Starting from the empty cache, after any sequence of calls, one
    run of the script makes at most one request.  When there is no secrets
    file, reading the secret on line 72 raises and the run ends there: no
    invitation, no request, the cache as it was.  When the file is there,
    the run makes no request and shows the invitation only, leaving the
    cache as it is, if the button is not clicked or if there is no key (the
    file has none, or an empty one, and nothing is typed).  A key in the
    file that is not empty is used whatever is typed. *)
Theorem script_request_bound (calls : list (Q * (string * string)))
    (now : Q) (store : secrets) (typed query : string)
    (refresh_button : bool) :
  let cache := after calls ∅ in
  let out := run_script now store typed query refresh_button cache in
  (page_requests out.1.2 <= 1)%nat
  /\ (forall e, store = NoSecretsFile e -> out = (Some e, [], cache))
  /\ (forall entries, store = SecretsFile entries ->
        refresh_button = false
        \/ (default "" (entries !! "GNEWS_API_KEY") = "" /\ typed = "") ->
        out = (None, idle, cache))
  /\ (forall entries key, store = SecretsFile entries ->
        entries !! "GNEWS_API_KEY" = Some key -> key <> "" ->
        out = run_script now store "" query refresh_button cache).
Proof.
  intros cache out. subst out. unfold script.
  destruct store as [e|entries]; cbn [secrets_get].
  - split; [cbn; lia |]. split; [intros e' [= <-]; reflexivity |].
    split; [intros entries H; discriminate H
           | intros entries key H; discriminate H].
  - destruct (page_after_secret network polarity_of str_other calls now
                (default "" (entries !! "GNEWS_API_KEY")) typed query
                refresh_button) as (Hle & Hidle & Hsecret).
    split; [exact Hle |]. split; [intros e H; discriminate H |].
    split.
    + intros entries' [= <-] [Hclick | [Hnone ->]]; apply Hidle.
      * left. exact Hclick.
      * right. unfold api_key_secret. rewrite Hnone. reflexivity.
    + intros entries' key [= <-] Hkey Hne. apply Hsecret.
      rewrite Hkey. exact Hne.
Qed.

End ScriptFacts.

(** * More concrete runs *)

Lemma body_not_object_raises_witness :
  fetch_and_analyze_news (serve (PList [])) neutral_scorer no_str_other
    "key" "topic"
  = (Raise (Exc AttributeError "'list' object has no attribute 'get'"),
     [HttpGet target]).
Proof.
  apply (body_not_object_raises (serve (PList [])) neutral_scorer
           no_str_other "key" "topic" (PList []) eq_refl).
  intros m H. discriminate H.
Defined.

Lemma articles_not_list_raises_witness :
  exists msg,
    fetch_and_analyze_news (serve (PDict {[ "articles" := PStr "none" ]}))
      neutral_scorer no_str_other "key" "topic"
    = (Raise (Exc AttributeError msg), [HttpGet target]).
Proof.
  apply (articles_not_list_raises
           (serve (PDict {[ "articles" := PStr "none" ]}))
           neutral_scorer no_str_other "key" "topic"
           {[ "articles" := PStr "none" ]} (PStr "none") eq_refl).
  - vm_compute. reflexivity.
  - reflexivity.
  - intros l H. discriminate H.
Defined.

Lemma falsy_articles_warning_witness :
  fetch_and_analyze_news (serve (PDict {[ "articles" := PNone ]}))
    neutral_scorer no_str_other "key" "topic"
  = (Ok [], [HttpGet target; Warning "No articles found for this query."]).
Proof.
  apply (falsy_articles_warning (serve (PDict {[ "articles" := PNone ]}))
           neutral_scorer no_str_other "key" "topic"
           {[ "articles" := PNone ]} PNone eq_refl).
  - vm_compute. reflexivity.
  - reflexivity.
Defined.

Lemma ill_formed_article_discards_all_witness :
  has_title Sample2.article_no_title_null_source = false
  /\ exists msg,
       fetch_and_analyze_news
         (serve (response [article_hello; Sample2.article_no_title_null_source]))
         neutral_scorer no_str_other "key" "topic"
       = (Raise (Exc AttributeError msg), [HttpGet target]).
Proof.
  split; [vm_compute; reflexivity |].
  apply (ill_formed_article_discards_all
           (serve (response [article_hello; Sample2.article_no_title_null_source]))
           neutral_scorer no_str_other "key" "topic"
           {[ "articles" :=
                PList [article_hello; Sample2.article_no_title_null_source] ]}
           [article_hello; Sample2.article_no_title_null_source]
           Sample2.article_no_title_null_source eq_refl).
  - vm_compute. reflexivity.
  - apply list_elem_of_further, list_elem_of_here.
  - vm_compute. reflexivity.
Defined.

Lemma untitled_only_silent_witness :
  fetch_and_analyze_news (serve (response [article_untitled]))
    neutral_scorer no_str_other "key" "topic"
  = (Ok [], [HttpGet target]).
Proof.
  apply (untitled_only_silent (serve (response [article_untitled]))
           neutral_scorer no_str_other "key" "topic"
           {[ "articles" := PList [article_untitled] ]} [article_untitled]
           eq_refl).
  - vm_compute. reflexivity.
  - discriminate.
  - repeat constructor.
  - repeat constructor.
Defined.

Local Abbreviation mood_rows :=
  [row_with article_hello f_0_5; row_with article_bare (SFopp f_0_5)].

Lemma mood_run :
  fetch_and_analyze_news (serve (response three))
    Sample2.mood_scorer no_str_other "key" "topic"
  = (Ok mood_rows, [HttpGet target]).
Proof. vm_compute. reflexivity. Qed.

Lemma labels_partition_rows_witness :
  Forall (fun r => sentiment_label r ∈ ["Positive"; "Negative"; "Neutral"])
    mood_rows
  /\ (count_label "Positive" mood_rows + count_label "Negative" mood_rows
      + count_label "Neutral" mood_rows = 2)%nat
  /\ (count_label "Positive" mood_rows + count_label "Negative" mood_rows
      <= 2)%nat.
Proof.
  exact (labels_partition_rows (serve (response three)) Sample2.mood_scorer
           no_str_other "key" "topic" mood_rows [HttpGet target] mood_run).
Defined.

Lemma score_sign_agrees_with_label_witness :
  sign_bit (PyFloat.round3 f_0_1004) = Some false
  /\ sign_bit (PyFloat.round3 (SFopp f_0_5)) = Some true.
Proof.
  split.
  - apply (score_sign_agrees_with_label f_0_1004). reflexivity.
  - apply (score_sign_agrees_with_label (SFopp f_0_5)). reflexivity.
Defined.

Lemma thousandths_nearest_witness :
  2 * Z.abs (7234582441407965 * 1000
             - 2 ^ 56 * PyFloat.thousandths 7234582441407965 (-56))
  <= 2 ^ 56
  /\ PyFloat.thousandths 4768371582031250 21 = 4768371582031250 * 1000 * 2 ^ 21.
Proof.
  split.
  - apply (thousandths_nearest 7234582441407965 (-56)). reflexivity.
  - apply (thousandths_nearest 4768371582031250 21). discriminate.
Defined.

Lemma text_has_no_outer_whitespace_witness :
  build_text no_str_other (PStr " Hello") (PStr "World ") = "Hello World"
  /\ py_isspace "H" = false
  /\ py_isspace "d" = false.
Proof.
  destruct (text_has_no_outer_whitespace no_str_other
              (PStr " Hello") (PStr "World ")) as (Hhead & Hlast & _).
  split; [reflexivity |]. split.
  - exact (Hhead "H"%char "ello World" eq_refl).
  - exact (Hlast "Hello Worl" "d"%char eq_refl).
Defined.

Lemma request_url_injective_witness :
  "topic" = "topic" /\ "key" = "key".
Proof.
  destruct (request_url_injective "key" "topic") as (Hq & Hk & _).
  split; [exact (Hq "topic" eq_refl) | exact (Hk "key" eq_refl)].
Defined.

Lemma failure_is_cached_witness :
  (cached_fetch Sample2.recovering_network neutral_scorer no_str_other
     0 "key" "topic" ∅).1
  = (Ok [], [HttpGet target; Error "Error fetching news: Connection refused"])
  /\ cached_fetch Sample2.recovering_network neutral_scorer no_str_other
       100 "key" "topic"
       (cached_fetch Sample2.recovering_network neutral_scorer no_str_other
          0 "key" "topic" ∅).2
     = (Ok [], [Error "Error fetching news: Connection refused"],
        (cached_fetch Sample2.recovering_network neutral_scorer no_str_other
           0 "key" "topic" ∅).2).
Proof.
  apply (failure_is_cached Sample2.recovering_network neutral_scorer
           no_str_other 0 100 "key" "topic" "Connection refused" ∅).
  - intros entry Hentry. rewrite lookup_empty in Hentry. discriminate Hentry.
  - reflexivity.
  - reflexivity.
Defined.

Lemma crashing_first_call :
  cached_fetch Sample2.crashing_network neutral_scorer no_str_other
    0 "key" "topic" ∅
  = (Raise recursion_error, [HttpGet target], ∅).
Proof. vm_compute. reflexivity. Qed.

Lemma raise_not_cached_witness :
  requests_made
    (cached_fetch Sample2.crashing_network neutral_scorer no_str_other
       10 "key" "topic" ∅).1.2 = 1%nat.
Proof.
  refine (proj2 (raise_not_cached Sample2.crashing_network neutral_scorer
                   no_str_other 0 10 "key" "topic" ∅ ∅ recursion_error
                   [HttpGet target] _ crashing_first_call _)).
  - intros entry Hentry. rewrite lookup_empty in Hentry. discriminate Hentry.
  - discriminate.
Defined.

Lemma hello_cache_after :
  cache_after changing_network neutral_scorer no_str_other
    [(0%Q, ("key", "topic"))] ∅ = hello_cache.
Proof. vm_compute. reflexivity. Qed.

Lemma at_most_one_request_witness :
  requests_made
    (cached 100 "key" "topic"
       (cache_after changing_network neutral_scorer no_str_other
          [(0%Q, ("key", "topic"))] ∅)).1.2 = 0%nat.
Proof.
  apply (at_most_one_request changing_network neutral_scorer no_str_other
           [(0%Q, ("key", "topic"))] 100 "key" "topic").
  rewrite hello_cache_after.
  exists (CacheEntry 0 hello_rows []). split; [| reflexivity].
  apply lookup_insert_eq.
Defined.

Lemma script_request_bound_witness :
  script changing_network neutral_scorer no_str_other 0
    (NoSecretsFile (Exc OtherException "No secrets found.")) "key" "topic"
    true ∅
  = (Some (Exc OtherException "No secrets found."), [], ∅)
  /\ script changing_network neutral_scorer no_str_other 0
       (SecretsFile ∅) "" "topic" true ∅
     = (None,
        [Info " Enter your GNews API key and a topic, then click 'Fetch and Analyze News' to begin."],
        ∅)
  /\ script changing_network neutral_scorer no_str_other 0
       (SecretsFile {[ "GNEWS_API_KEY" := "key" ]}) "typed" "topic" true ∅
     = script changing_network neutral_scorer no_str_other 0
         (SecretsFile {[ "GNEWS_API_KEY" := "key" ]}) "" "topic" true ∅.
Proof.
  destruct (script_request_bound changing_network neutral_scorer no_str_other
              [] 0 (NoSecretsFile (Exc OtherException "No secrets found."))
              "key" "topic" true) as (_ & Hnone & _).
  destruct (script_request_bound changing_network neutral_scorer no_str_other
              [] 0 (SecretsFile ∅) "" "topic" true) as (_ & _ & Hidle & _).
  destruct (script_request_bound changing_network neutral_scorer no_str_other
              [] 0 (SecretsFile {[ "GNEWS_API_KEY" := "key" ]})
              "typed" "topic" true) as (_ & _ & _ & Hsecret).
  split; [exact (Hnone _ eq_refl) |]. split.
  - apply (Hidle ∅ eq_refl). right. split; reflexivity.
  - apply (Hsecret {[ "GNEWS_API_KEY" := "key" ]} "key" eq_refl);
      [vm_compute; reflexivity | discriminate].
Defined.

Lemma page_shows_counts_witness :
  page changing_network Sample2.mood_scorer no_str_other
    60 "" "key" "topic" true ∅
  = (None,
     [Event (HttpGet target);
      Success " Successfully analyzed 2 articles for 'topic'!";
      Metric TotalArticles 2; Metric PositiveArticles 1;
      Metric NegativeArticles 1],
     <[("key", "topic") :=
         CacheEntry 60
           (row_of Sample2.mood_scorer no_str_other
              <$> [article_bare; article_hello]) []]> ∅).
Proof.
  refine (page_shows_counts changing_network Sample2.mood_scorer no_str_other
            60 "" "key" "topic" ∅
            {[ "articles" := PList [article_bare; article_hello] ]}
            [article_bare; article_hello] _ _ eq_refl _ _ _).
  - discriminate.
  - intros entry Hentry. rewrite lookup_empty in Hentry. discriminate Hentry.
  - vm_compute. reflexivity.
  - repeat constructor.
  - discriminate.
Defined.

Lemma page_empty_outcomes_witness :
  (page (fun _ => serve (response [])) neutral_scorer no_str_other
     0 "key" "" "topic" true ∅).1
  = (None, [Event (HttpGet target);
            Event (Warning "No articles found for this query.");
            Event (Error "Could not retrieve or analyze news. Check your API key or query.")])
  /\ (page (fun _ => fail_with connection_error) neutral_scorer no_str_other
        0 "key" "" "topic" true ∅).1
     = (None, [Event (HttpGet target);
               Event (Error "Error fetching news: Connection refused");
               Event (Error "Could not retrieve or analyze news. Check your API key or query.")])
  /\ (page (fun _ => serve (response [article_untitled])) neutral_scorer
        no_str_other 0 "key" "" "topic" true ∅).1
     = (None, [Event (HttpGet target);
               Event (Error "Could not retrieve or analyze news. Check your API key or query.")]).
Proof.
  assert (Hstale : forall entry : cache_entry,
            (∅ : gmap (string * string) cache_entry) !! ("key", "topic")
            = Some entry -> (stored_at entry + ttl <= 0)%Q).
  { intros entry Hentry. rewrite lookup_empty in Hentry. discriminate Hentry. }
  assert (Hkey : api_key_secret "key" "" <> "") by discriminate.
  split; [| split].
  - refine (proj1 (page_empty_outcomes (fun _ => serve (response []))
                     neutral_scorer no_str_other 0 "key" "" "topic" ∅
                     Hkey Hstale)
              {[ "articles" := PList [] ]} eq_refl _).
    right. exists (PList []). split; [vm_compute |]; reflexivity.
  - exact (proj1 (proj2 (page_empty_outcomes
                           (fun _ => fail_with connection_error)
                           neutral_scorer no_str_other 0 "key" "" "topic" ∅
                           Hkey Hstale))
             "Connection refused" eq_refl).
  - refine (proj2 (proj2 (page_empty_outcomes
                            (fun _ => serve (response [article_untitled]))
                            neutral_scorer no_str_other 0 "key" "" "topic" ∅
                            Hkey Hstale))
              {[ "articles" := PList [article_untitled] ]} [article_untitled]
              eq_refl _ _ _ _).
    + vm_compute. reflexivity.
    + discriminate.
    + repeat constructor.
    + repeat constructor.
Defined.

Local Abbreviation hello_page :=
  [Event (HttpGet target);
   Success " Successfully analyzed 1 articles for 'topic'!";
   Metric TotalArticles 1; Metric PositiveArticles 0;
   Metric NegativeArticles 0].

Lemma first_click :
  page changing_network neutral_scorer no_str_other 0 "key" "" "topic" true ∅
  = (None, hello_page, hello_cache).
Proof. vm_compute. reflexivity. Qed.

Lemma page_repeat_click_witness :
  exists rows evs,
    hello_page = ((Event <$> evs) ++ show_rows "topic" rows)%list
    /\ page changing_network neutral_scorer no_str_other
         100 "key" "" "topic" true hello_cache
       = (None,
          ((Event <$> filter is_message evs) ++ show_rows "topic" rows)%list,
          hello_cache)
    /\ page_requests
         ((Event <$> filter is_message evs) ++ show_rows "topic" rows) = 0%nat.
Proof.
  refine (page_repeat_click changing_network neutral_scorer no_str_other
            0 100 "key" "" "topic" ∅ hello_cache hello_page _ _
            first_click _).
  - discriminate.
  - intros entry Hentry. rewrite lookup_empty in Hentry. discriminate Hentry.
  - reflexivity.
Defined.
